(** * Offscreen render targets of the Cubism WebGL renderer

    A shallow embedding of [CubismRenderTarget_WebGL]
    (rendering/cubismrendertarget_webgl.ts) and of the interface
    [CubismRenderTarget] (rendering/cubismrendertarget.ts).

    The class is stateful in two ways: every instance is a mutable object
    that several callers may alias, and every method talks to a WebGL
    rendering context, itself a mutable object.  Both stores are explicit
    here: a [World] holds the heap of render target objects and the state of
    every rendering context, and a method is a function from worlds to
    outcomes, an outcome being a normal return or a thrown JavaScript
    exception, each with the world reached at that point. *)

From Stdlib Require Import List String PeanoNat ZArith Floats Lia.
Import ListNotations.

Set Implicit Arguments.

(** ** JavaScript values *)

(** A JavaScript [number] is an IEEE 754 binary64 value.  The class stores and
    forwards numbers and never computes with them. *)
Definition number := float.

(** Object references.  [null] is [None] at every nullable position. *)
Definition TargetRef := nat.
Definition GLRef := nat.

Inductive JsError : Type :=
| TypeError (message : string)
| ReferenceError (message : string)
| Error (message : string).

(** ** The rendering context

    The context is the browser's, not this repository's.  It is modelled as a
    recording context:
    - a binding call sets the binding it names ([FRAMEBUFFER] sets the draw
      and the read binding, [getParameter(FRAMEBUFFER_BINDING)] reads the
      draw binding);
    - a creation call returns a new object, or [null] when the script of the
      context says so; a deletion takes the object out of those alive and
      leaves the bindings alone;
    - [checkFramebufferStatus] returns what the script says,
      [FRAMEBUFFER_COMPLETE] when it says nothing;
    - every call is appended to the list of the calls received.
    No call on a context throws. *)

Definition GLenum := Z.

Definition TEXTURE_2D : GLenum := 0x0DE1%Z.
Definition RGBA : GLenum := 0x1908%Z.
Definition UNSIGNED_BYTE : GLenum := 0x1401%Z.
Definition TEXTURE_MAG_FILTER : GLenum := 0x2800%Z.
Definition TEXTURE_MIN_FILTER : GLenum := 0x2801%Z.
Definition TEXTURE_WRAP_S : GLenum := 0x2802%Z.
Definition TEXTURE_WRAP_T : GLenum := 0x2803%Z.
Definition NEAREST : GLenum := 0x2600%Z.
Definition LINEAR : GLenum := 0x2601%Z.
Definition CLAMP_TO_EDGE : GLenum := 0x812F%Z.
Definition COLOR_BUFFER_BIT : GLenum := 0x4000%Z.
Definition FRAMEBUFFER : GLenum := 0x8D40%Z.
Definition READ_FRAMEBUFFER : GLenum := 0x8CA8%Z.
Definition DRAW_FRAMEBUFFER : GLenum := 0x8CA9%Z.
Definition FRAMEBUFFER_BINDING : GLenum := 0x8CA6%Z.
Definition COLOR_ATTACHMENT0 : GLenum := 0x8CE0%Z.
Definition FRAMEBUFFER_COMPLETE : GLenum := 0x8CD5%Z.
Definition FRAMEBUFFER_INCOMPLETE_ATTACHMENT : GLenum := 0x8CD6%Z.
Definition FRAMEBUFFER_UNSUPPORTED : GLenum := 0x8CDD%Z.

(** A texture or framebuffer object remembers the context that made it, so
    that objects of two contexts are never confused. *)
Record WebGLTexture : Type := mkTexture
  { tex_context : GLRef; tex_name : nat }.

Record WebGLFramebuffer : Type := mkFramebuffer
  { fb_context : GLRef; fb_name : nat }.

Definition texture_eqb (a b : WebGLTexture) : bool :=
  Nat.eqb (tex_context a) (tex_context b) && Nat.eqb (tex_name a) (tex_name b).

Definition framebuffer_eqb (a b : WebGLFramebuffer) : bool :=
  Nat.eqb (fb_context a) (fb_context b) && Nat.eqb (fb_name a) (fb_name b).

Inductive GLCall : Type :=
| call_createTexture (result : option WebGLTexture)
| call_bindTexture (target : GLenum) (texture : option WebGLTexture)
| call_texImage2D (target : GLenum) (level : Z) (internalformat : GLenum)
    (width height : number) (border : Z) (format type : GLenum)
| call_texParameteri (target pname param : GLenum)
| call_deleteTexture (texture : WebGLTexture)
| call_createFramebuffer (result : option WebGLFramebuffer)
| call_bindFramebuffer (target : GLenum) (framebuffer : option WebGLFramebuffer)
| call_framebufferTexture2D (target attachment textarget : GLenum)
    (texture : option WebGLTexture) (level : Z)
| call_checkFramebufferStatus (target : GLenum) (result : GLenum)
| call_deleteFramebuffer (framebuffer : WebGLFramebuffer)
| call_getParameter (pname : GLenum)
| call_blitFramebuffer (srcX0 srcY0 srcX1 srcY1 dstX0 dstY0 dstX1 dstY1 : number)
    (mask filter : GLenum)
| call_clearColor (r g b a : number)
| call_clear (mask : GLenum).

Record GLContext : Type := mkGL
  { isWebGL2 : bool;
    (* FRAMEBUFFER_BINDING, which is also DRAW_FRAMEBUFFER_BINDING *)
    drawFramebuffer : option WebGLFramebuffer;
    readFramebuffer : option WebGLFramebuffer;
    boundTexture : option WebGLTexture;
    liveTextures : list WebGLTexture;
    liveFramebuffers : list WebGLFramebuffer;
    textureImages : list (WebGLTexture * (number * number));
    nextName : nat;
    (* results of the coming createTexture, createFramebuffer and
       checkFramebufferStatus calls; an empty script means success *)
    textureScript : list bool;
    framebufferScript : list bool;
    statusScript : list GLenum;
    calls : list GLCall }.

Definition is_call_blitFramebuffer (c : GLCall) : bool :=
  match c with call_blitFramebuffer _ _ _ _ _ _ _ _ _ _ => true | _ => false end.

Module Ctx.

Definition record_call (c : GLCall) (g : GLContext) : GLContext :=
  mkGL (isWebGL2 g) (drawFramebuffer g) (readFramebuffer g) (boundTexture g)
       (liveTextures g) (liveFramebuffers g) (textureImages g) (nextName g)
       (textureScript g) (framebufferScript g) (statusScript g)
       (calls g ++ [c]).

Definition set_framebuffers (d r : option WebGLFramebuffer) (g : GLContext)
  : GLContext :=
  mkGL (isWebGL2 g) d r (boundTexture g)
       (liveTextures g) (liveFramebuffers g) (textureImages g) (nextName g)
       (textureScript g) (framebufferScript g) (statusScript g) (calls g).

Definition set_boundTexture (t : option WebGLTexture) (g : GLContext)
  : GLContext :=
  mkGL (isWebGL2 g) (drawFramebuffer g) (readFramebuffer g) t
       (liveTextures g) (liveFramebuffers g) (textureImages g) (nextName g)
       (textureScript g) (framebufferScript g) (statusScript g) (calls g).

Definition set_textures (l : list WebGLTexture) (n : nat) (s : list bool)
  (g : GLContext) : GLContext :=
  mkGL (isWebGL2 g) (drawFramebuffer g) (readFramebuffer g) (boundTexture g)
       l (liveFramebuffers g) (textureImages g) n
       s (framebufferScript g) (statusScript g) (calls g).

Definition set_framebufferObjects (l : list WebGLFramebuffer) (n : nat)
  (s : list bool) (g : GLContext) : GLContext :=
  mkGL (isWebGL2 g) (drawFramebuffer g) (readFramebuffer g) (boundTexture g)
       (liveTextures g) l (textureImages g) n
       (textureScript g) s (statusScript g) (calls g).

Definition set_textureImages (l : list (WebGLTexture * (number * number)))
  (g : GLContext) : GLContext :=
  mkGL (isWebGL2 g) (drawFramebuffer g) (readFramebuffer g) (boundTexture g)
       (liveTextures g) (liveFramebuffers g) l (nextName g)
       (textureScript g) (framebufferScript g) (statusScript g) (calls g).

Definition set_statusScript (s : list GLenum) (g : GLContext) : GLContext :=
  mkGL (isWebGL2 g) (drawFramebuffer g) (readFramebuffer g) (boundTexture g)
       (liveTextures g) (liveFramebuffers g) (textureImages g) (nextName g)
       (textureScript g) (framebufferScript g) s (calls g).

Definition scripted {A : Type} (default : A) (s : list A) : A :=
  match s with [] => default | a :: _ => a end.

Definition createTexture (self : GLRef) (g : GLContext)
  : option WebGLTexture * GLContext :=
  if scripted true (textureScript g) then
    let t := mkTexture self (nextName g) in
    (Some t,
     record_call (call_createTexture (Some t))
       (set_textures (t :: liveTextures g) (S (nextName g))
          (tl (textureScript g)) g))
  else
    (None,
     record_call (call_createTexture None)
       (set_textures (liveTextures g) (nextName g) (tl (textureScript g)) g)).

Definition bindTexture (target : GLenum) (t : option WebGLTexture)
  (g : GLContext) : GLContext :=
  record_call (call_bindTexture target t)
    (if Z.eqb target TEXTURE_2D then set_boundTexture t g else g).

Definition texImage2D (target : GLenum) (level : Z) (internalformat : GLenum)
  (width height : number) (border : Z) (format type : GLenum)
  (g : GLContext) : GLContext :=
  record_call
    (call_texImage2D target level internalformat width height border format type)
    (match boundTexture g with
     | Some t => set_textureImages ((t, (width, height)) :: textureImages g) g
     | None => g
     end).

Definition texParameteri (target pname param : GLenum) (g : GLContext)
  : GLContext :=
  record_call (call_texParameteri target pname param) g.

Definition deleteTexture (t : WebGLTexture) (g : GLContext) : GLContext :=
  record_call (call_deleteTexture t)
    (set_textures
       (filter (fun x => negb (texture_eqb x t)) (liveTextures g))
       (nextName g) (textureScript g) g).

Definition createFramebuffer (self : GLRef) (g : GLContext)
  : option WebGLFramebuffer * GLContext :=
  if scripted true (framebufferScript g) then
    let f := mkFramebuffer self (nextName g) in
    (Some f,
     record_call (call_createFramebuffer (Some f))
       (set_framebufferObjects (f :: liveFramebuffers g) (S (nextName g))
          (tl (framebufferScript g)) g))
  else
    (None,
     record_call (call_createFramebuffer None)
       (set_framebufferObjects (liveFramebuffers g) (nextName g)
          (tl (framebufferScript g)) g)).

Definition bindFramebuffer (target : GLenum) (f : option WebGLFramebuffer)
  (g : GLContext) : GLContext :=
  record_call (call_bindFramebuffer target f)
    (if Z.eqb target FRAMEBUFFER then set_framebuffers f f g
     else if Z.eqb target DRAW_FRAMEBUFFER
          then set_framebuffers f (readFramebuffer g) g
     else if Z.eqb target READ_FRAMEBUFFER
          then set_framebuffers (drawFramebuffer g) f g
     else g).

Definition framebufferTexture2D (target attachment textarget : GLenum)
  (t : option WebGLTexture) (level : Z) (g : GLContext) : GLContext :=
  record_call (call_framebufferTexture2D target attachment textarget t level) g.

Definition checkFramebufferStatus (target : GLenum) (g : GLContext)
  : GLenum * GLContext :=
  let status := scripted FRAMEBUFFER_COMPLETE (statusScript g) in
  (status,
   record_call (call_checkFramebufferStatus target status)
     (set_statusScript (tl (statusScript g)) g)).

Definition deleteFramebuffer (f : WebGLFramebuffer) (g : GLContext)
  : GLContext :=
  record_call (call_deleteFramebuffer f)
    (set_framebufferObjects
       (filter (fun x => negb (framebuffer_eqb x f)) (liveFramebuffers g))
       (nextName g) (framebufferScript g) g).

(** [getParameter(FRAMEBUFFER_BINDING)] *)
Definition getParameter_FRAMEBUFFER_BINDING (g : GLContext)
  : option WebGLFramebuffer * GLContext :=
  (drawFramebuffer g, record_call (call_getParameter FRAMEBUFFER_BINDING) g).

Definition blitFramebuffer
  (srcX0 srcY0 srcX1 srcY1 dstX0 dstY0 dstX1 dstY1 : number)
  (mask filter : GLenum) (g : GLContext) : GLContext :=
  record_call
    (call_blitFramebuffer srcX0 srcY0 srcX1 srcY1 dstX0 dstY0 dstX1 dstY1
       mask filter) g.

Definition clearColor (r g_ b a : number) (g : GLContext) : GLContext :=
  record_call (call_clearColor r g_ b a) g.

Definition clear (mask : GLenum) (g : GLContext) : GLContext :=
  record_call (call_clear mask) g.

End Ctx.

(** ** Render target objects and the world *)

(** The fields of a [CubismRenderTarget_WebGL] instance. *)
Record CubismRenderTarget_WebGL : Type := mkTarget
  { _gl : option GLRef;
    _colorBuffer : option WebGLTexture;
    _renderTexture : option WebGLFramebuffer;
    _bufferWidth : number;
    _bufferHeight : number;
    _oldFbo : option WebGLFramebuffer;
    _offscreenIndex : number;
    _parentOffscreenRenderTarget : option TargetRef;
    _oldOffscreen : option TargetRef }.

(** The world: the heap of render targets, the contexts, the console, and
    what the host defines: [hostDefinesWebGL2] tells whether the global
    [WebGL2RenderingContext] exists.  It does on a host that implements
    WebGL2, whichever kind of context the program obtained, and does not on
    a host that knows WebGL1 only. *)
Record World : Type := mkWorld
  { targets : TargetRef -> CubismRenderTarget_WebGL;
    nextTarget : TargetRef;
    contexts : GLRef -> GLContext;
    console : list string;
    hostDefinesWebGL2 : bool }.

Definition update {A : Type} (f : nat -> A) (k : nat) (v : A) : nat -> A :=
  fun x => if Nat.eqb x k then v else f x.

Definition set_target (r : TargetRef) (t : CubismRenderTarget_WebGL) (w : World)
  : World :=
  mkWorld (update (targets w) r t) (nextTarget w) (contexts w) (console w)
    (hostDefinesWebGL2 w).

Definition set_context (r : GLRef) (g : GLContext) (w : World) : World :=
  mkWorld (targets w) (nextTarget w) (update (contexts w) r g) (console w)
    (hostDefinesWebGL2 w).

(** ** Methods as state transformers that may throw *)

Inductive Outcome (A : Type) : Type :=
| Returned (value : A) (w : World)
| Thrown (e : JsError) (w : World).

Arguments Thrown {A} e w.

Definition M (A : Type) : Type := World -> Outcome A.

Definition ret {A : Type} (a : A) : M A := fun w => Returned a w.

Definition throw {A : Type} (e : JsError) : M A := fun w => Thrown e w.

Definition bind {A B : Type} (m : M A) (k : A -> M B) : M B :=
  fun w =>
    match m w with
    | Returned a w' => k a w'
    | Thrown e w' => Thrown e w'
    end.

Declare Scope js_scope.
Delimit Scope js_scope with js.
Notation "x <- m ;; k" := (bind m (fun x => k))
  (at level 61, m at next level, right associativity) : js_scope.
Notation "m ;; k" := (bind m (fun _ => k))
  (at level 61, right associativity) : js_scope.
Local Open Scope js_scope.

Definition final_world {A : Type} (o : Outcome A) : World :=
  match o with Returned _ w => w | Thrown _ w => w end.

(** Reading and assigning a field of [this]. *)
Definition read {A : Type} (field : CubismRenderTarget_WebGL -> A)
  (this : TargetRef) : M A :=
  fun w => Returned (field (targets w this)) w.

Definition assign (upd : CubismRenderTarget_WebGL -> CubismRenderTarget_WebGL)
  (this : TargetRef) : M unit :=
  fun w => Returned tt (set_target this (upd (targets w this)) w).

Module Field.

Definition set_gl (v : option GLRef) (t : CubismRenderTarget_WebGL) :=
  mkTarget v (_colorBuffer t) (_renderTexture t) (_bufferWidth t)
    (_bufferHeight t) (_oldFbo t) (_offscreenIndex t)
    (_parentOffscreenRenderTarget t) (_oldOffscreen t).

Definition set_colorBuffer (v : option WebGLTexture)
  (t : CubismRenderTarget_WebGL) :=
  mkTarget (_gl t) v (_renderTexture t) (_bufferWidth t)
    (_bufferHeight t) (_oldFbo t) (_offscreenIndex t)
    (_parentOffscreenRenderTarget t) (_oldOffscreen t).

Definition set_renderTexture (v : option WebGLFramebuffer)
  (t : CubismRenderTarget_WebGL) :=
  mkTarget (_gl t) (_colorBuffer t) v (_bufferWidth t)
    (_bufferHeight t) (_oldFbo t) (_offscreenIndex t)
    (_parentOffscreenRenderTarget t) (_oldOffscreen t).

Definition set_bufferWidth (v : number) (t : CubismRenderTarget_WebGL) :=
  mkTarget (_gl t) (_colorBuffer t) (_renderTexture t) v
    (_bufferHeight t) (_oldFbo t) (_offscreenIndex t)
    (_parentOffscreenRenderTarget t) (_oldOffscreen t).

Definition set_bufferHeight (v : number) (t : CubismRenderTarget_WebGL) :=
  mkTarget (_gl t) (_colorBuffer t) (_renderTexture t) (_bufferWidth t)
    v (_oldFbo t) (_offscreenIndex t)
    (_parentOffscreenRenderTarget t) (_oldOffscreen t).

Definition set_oldFbo (v : option WebGLFramebuffer)
  (t : CubismRenderTarget_WebGL) :=
  mkTarget (_gl t) (_colorBuffer t) (_renderTexture t) (_bufferWidth t)
    (_bufferHeight t) v (_offscreenIndex t)
    (_parentOffscreenRenderTarget t) (_oldOffscreen t).

Definition set_offscreenIndex (v : number) (t : CubismRenderTarget_WebGL) :=
  mkTarget (_gl t) (_colorBuffer t) (_renderTexture t) (_bufferWidth t)
    (_bufferHeight t) (_oldFbo t) v
    (_parentOffscreenRenderTarget t) (_oldOffscreen t).

Definition set_parentOffscreenRenderTarget (v : option TargetRef)
  (t : CubismRenderTarget_WebGL) :=
  mkTarget (_gl t) (_colorBuffer t) (_renderTexture t) (_bufferWidth t)
    (_bufferHeight t) (_oldFbo t) (_offscreenIndex t)
    v (_oldOffscreen t).

Definition set_oldOffscreen (v : option TargetRef)
  (t : CubismRenderTarget_WebGL) :=
  mkTarget (_gl t) (_colorBuffer t) (_renderTexture t) (_bufferWidth t)
    (_bufferHeight t) (_oldFbo t) (_offscreenIndex t)
    (_parentOffscreenRenderTarget t) v.

End Field.

(** A method call on a context reference: the context's state is replaced by
    the one the call leaves. *)
Definition gl_call {A : Type} (gl : GLRef) (op : GLContext -> A * GLContext)
  : M A :=
  fun w =>
    let r := op (contexts w gl) in
    Returned (fst r) (set_context gl (snd r) w).

Definition gl_do (gl : GLRef) (op : GLContext -> GLContext) : M unit :=
  fun w => Returned tt (set_context gl (op (contexts w gl)) w).

(** [gl instanceof WebGL2RenderingContext].  The right operand is a global
    of the host, read without a [typeof] guard: on a host that does not
    define it, evaluating the name throws a ReferenceError before any test is
    made.  A WebGL2 context is an instance of that constructor, so where
    [gl] is one the global is defined, whatever [hostDefinesWebGL2] says. *)
Definition instanceof_WebGL2RenderingContext (gl : GLRef) : M bool :=
  fun w =>
    if isWebGL2 (contexts w gl) then Returned true w
    else if hostDefinesWebGL2 w then Returned false w
    else Thrown (ReferenceError "WebGL2RenderingContext is not defined") w.

(** Evaluating [this._gl.m(...)]: a property access on [null] throws. *)
Definition this_gl (this : TargetRef) : M GLRef :=
  fun w =>
    match _gl (targets w this) with
    | Some gl => Returned gl w
    | None => Thrown (TypeError "Cannot read properties of null") w
    end.

Definition console_error (message : string) : M unit :=
  fun w =>
    Returned tt
      (mkWorld (targets w) (nextTarget w) (contexts w) (console w ++ [message])
         (hostDefinesWebGL2 w)).

(** ** The class [CubismRenderTarget_WebGL] *)

(** Truthiness of an object reference: [null] is falsy, an object truthy. *)
Definition truthy {A : Type} (o : option A) : bool :=
  match o with Some _ => true | None => false end.

Definition getGL (this : TargetRef) : M (option GLRef) := read _gl this.

Definition getRenderTexture (this : TargetRef) : M (option WebGLFramebuffer) :=
  read _renderTexture this.

Definition getColorBuffer (this : TargetRef) : M (option WebGLTexture) :=
  read _colorBuffer this.

Definition getBufferWidth (this : TargetRef) : M number :=
  read _bufferWidth this.

Definition getBufferHeight (this : TargetRef) : M number :=
  read _bufferHeight this.

Definition isValid (this : TargetRef) : M bool :=
  rt <- read _renderTexture this ;;
  ret (truthy rt).

Definition setOffscreenIndex (this : TargetRef) (offscreenIndex : number)
  : M unit :=
  assign (Field.set_offscreenIndex offscreenIndex) this.

Definition getOffscreenIndex (this : TargetRef) : M number :=
  read _offscreenIndex this.

Definition getOldFBO (this : TargetRef) : M (option WebGLFramebuffer) :=
  read _oldFbo this.

Definition setOldOffscreen (this : TargetRef) (oldOffscreen : option TargetRef)
  : M unit :=
  assign (Field.set_oldOffscreen oldOffscreen) this.

Definition getOldOffscreen (this : TargetRef) : M (option TargetRef) :=
  read _oldOffscreen this.

Definition setParentPartOffscreen (this : TargetRef)
  (parentOffscreenRenderTarget : option TargetRef) : M unit :=
  assign (Field.set_parentOffscreenRenderTarget parentOffscreenRenderTarget) this.

Definition getParentPartOffscreen (this : TargetRef) : M (option TargetRef) :=
  read _parentOffscreenRenderTarget this.

(** The constructor: a new object with every field at its initial value. *)
Definition constructed : CubismRenderTarget_WebGL :=
  mkTarget None None None 0%float 0%float None (-1)%float None None.

Definition new_CubismRenderTarget_WebGL : M TargetRef :=
  fun w =>
    Returned (nextTarget w)
      (mkWorld (update (targets w) (nextTarget w) constructed)
         (S (nextTarget w)) (contexts w) (console w) (hostDefinesWebGL2 w)).

Definition copyBuffer (gl : GLRef) (src dst : option TargetRef) : M unit :=
  match src, dst with
  | Some src, Some dst =>
      is2 <- instanceof_WebGL2RenderingContext gl ;;
      if negb is2
      then throw (Error "WebGL2RenderingContext is required for buffer copy.")
      else
        previousFramebuffer <- gl_call gl Ctx.getParameter_FRAMEBUFFER_BINDING ;;
        srcFbo <- getRenderTexture src ;;
        gl_do gl (Ctx.bindFramebuffer READ_FRAMEBUFFER srcFbo) ;;
        dstFbo <- getRenderTexture dst ;;
        gl_do gl (Ctx.bindFramebuffer DRAW_FRAMEBUFFER dstFbo) ;;
        srcW <- getBufferWidth src ;;
        srcH <- getBufferHeight src ;;
        dstW <- getBufferWidth dst ;;
        dstH <- getBufferHeight dst ;;
        gl_do gl (Ctx.blitFramebuffer 0%float 0%float srcW srcH
                    0%float 0%float dstW dstH
                    COLOR_BUFFER_BIT NEAREST) ;;
        gl_do gl (Ctx.bindFramebuffer FRAMEBUFFER previousFramebuffer)
  | _, _ => ret tt
  end.

Definition beginDraw (this : TargetRef) (restoreFbo : option WebGLFramebuffer)
  : M unit :=
  rt <- read _renderTexture this ;;
  match rt with
  | None => ret tt
  | Some _ =>
      match restoreFbo with
      | None =>
          gl <- this_gl this ;;
          bound <- gl_call gl Ctx.getParameter_FRAMEBUFFER_BINDING ;;
          assign (Field.set_oldFbo bound) this
      | Some _ => assign (Field.set_oldFbo restoreFbo) this
      end ;;
      gl <- this_gl this ;;
      rt' <- read _renderTexture this ;;
      gl_do gl (Ctx.bindFramebuffer FRAMEBUFFER rt')
  end.

Definition endDraw (this : TargetRef) : M unit :=
  gl <- this_gl this ;;
  old <- read _oldFbo this ;;
  gl_do gl (Ctx.bindFramebuffer FRAMEBUFFER old).

Definition clear (this : TargetRef) (r g b a : number) : M unit :=
  gl <- this_gl this ;;
  gl_do gl (Ctx.clearColor r g b a) ;;
  gl' <- this_gl this ;;
  gl_do gl' (Ctx.clear COLOR_BUFFER_BIT).

Definition destroyRenderTarget (this : TargetRef) : M unit :=
  cb <- read _colorBuffer this ;;
  match cb with
  | Some tex =>
      gl <- this_gl this ;;
      gl_do gl (Ctx.bindTexture TEXTURE_2D None) ;;
      gl_do gl (Ctx.deleteTexture tex) ;;
      assign (Field.set_colorBuffer None) this
  | None => ret tt
  end ;;
  rt <- read _renderTexture this ;;
  match rt with
  | Some fbo =>
      gl <- this_gl this ;;
      gl_do gl (Ctx.bindFramebuffer FRAMEBUFFER None) ;;
      gl_do gl (Ctx.deleteFramebuffer fbo) ;;
      assign (Field.set_renderTexture None) this
  | None => ret tt
  end.

Definition createOffscreenRenderTarget (this : TargetRef) (gl : GLRef)
  (displayBufferWidth displayBufferHeight : number)
  (previousFramebuffer : option WebGLFramebuffer) : M bool :=
  destroyRenderTarget this ;;
  tex <- gl_call gl (Ctx.createTexture gl) ;;
  assign (Field.set_colorBuffer tex) this ;;
  cb0 <- read _colorBuffer this ;;
  gl_do gl (Ctx.bindTexture TEXTURE_2D cb0) ;;
  gl_do gl (Ctx.texImage2D TEXTURE_2D 0%Z RGBA
              displayBufferWidth displayBufferHeight 0%Z RGBA UNSIGNED_BYTE) ;;
  gl_do gl (Ctx.texParameteri TEXTURE_2D TEXTURE_WRAP_S CLAMP_TO_EDGE) ;;
  gl_do gl (Ctx.texParameteri TEXTURE_2D TEXTURE_WRAP_T CLAMP_TO_EDGE) ;;
  gl_do gl (Ctx.texParameteri TEXTURE_2D TEXTURE_MIN_FILTER LINEAR) ;;
  gl_do gl (Ctx.texParameteri TEXTURE_2D TEXTURE_MAG_FILTER LINEAR) ;;
  gl_do gl (Ctx.bindTexture TEXTURE_2D None) ;;
  created <- gl_call gl (Ctx.createFramebuffer gl) ;;
  match created with
  | None =>
      console_error "Failed to create framebuffer" ;;
      ret false
  | Some fbo =>
      gl_do gl (Ctx.bindFramebuffer FRAMEBUFFER (Some fbo)) ;;
      cb <- read _colorBuffer this ;;
      gl_do gl (Ctx.framebufferTexture2D FRAMEBUFFER COLOR_ATTACHMENT0
                  TEXTURE_2D cb 0%Z) ;;
      status <- gl_call gl (Ctx.checkFramebufferStatus FRAMEBUFFER) ;;
      if negb (Z.eqb status FRAMEBUFFER_COMPLETE)
      then
        console_error "Framebuffer is not complete" ;;
        gl_do gl (Ctx.bindFramebuffer FRAMEBUFFER previousFramebuffer) ;;
        gl_do gl (Ctx.deleteFramebuffer fbo) ;;
        destroyRenderTarget this ;;
        ret false
      else
        assign (Field.set_renderTexture (Some fbo)) this ;;
        assign (Field.set_bufferWidth displayBufferWidth) this ;;
        assign (Field.set_bufferHeight displayBufferHeight) this ;;
        assign (Field.set_gl (Some gl)) this ;;
        ret true
  end.

(** The interface [CubismRenderTarget] and its implementation by the class. *)
Module CubismRenderTarget.

Class Interface (T : Type) : Type :=
  { setOffscreenIndex : T -> number -> M unit;
    getOffscreenIndex : T -> M number;
    setOldOffscreen : T -> option T -> M unit;
    getOldOffscreen : T -> M (option T);
    setParentPartOffscreen : T -> option T -> M unit;
    getParentPartOffscreen : T -> M (option T) }.

End CubismRenderTarget.

#[export] Instance CubismRenderTarget_WebGL_implements
  : CubismRenderTarget.Interface TargetRef :=
  {| CubismRenderTarget.setOffscreenIndex := setOffscreenIndex;
     CubismRenderTarget.getOffscreenIndex := getOffscreenIndex;
     CubismRenderTarget.setOldOffscreen := setOldOffscreen;
     CubismRenderTarget.getOldOffscreen := getOldOffscreen;
     CubismRenderTarget.setParentPartOffscreen := setParentPartOffscreen;
     CubismRenderTarget.getParentPartOffscreen := getParentPartOffscreen |}.

(** ** Call sequences *)

(** What a caller can do with the class.  A caller that catches an exception
    goes on from the world the throwing call left. *)
Inductive Op : Type :=
| op_new
| op_allocate (this : TargetRef) (gl : GLRef) (width height : number)
    (previousFramebuffer : option WebGLFramebuffer)
| op_beginDraw (this : TargetRef) (restoreFbo : option WebGLFramebuffer)
| op_endDraw (this : TargetRef)
| op_clear (this : TargetRef) (r g b a : number)
| op_destroy (this : TargetRef)
| op_copyBuffer (gl : GLRef) (src dst : option TargetRef).

Definition run_op (o : Op) (w : World) : World :=
  match o with
  | op_new => final_world (new_CubismRenderTarget_WebGL w)
  | op_allocate this gl width height previousFramebuffer =>
      final_world
        (createOffscreenRenderTarget this gl width height previousFramebuffer w)
  | op_beginDraw this restoreFbo => final_world (beginDraw this restoreFbo w)
  | op_endDraw this => final_world (endDraw this w)
  | op_clear this r g b a => final_world (clear this r g b a w)
  | op_destroy this => final_world (destroyRenderTarget this w)
  | op_copyBuffer gl src dst => final_world (copyBuffer gl src dst w)
  end.

Definition run (ops : list Op) (w : World) : World :=
  fold_left (fun w o => run_op o w) ops w.

(** A context on which nothing happened yet, and a world with no object in
    which every context is such a one, on a host that defines the global
    [WebGL2RenderingContext]. *)
Definition pristine (webgl2 : bool) : GLContext :=
  mkGL webgl2 None None None [] [] [] 0 [] [] [] [].

Definition empty_world (webgl2 : bool) : World :=
  mkWorld (fun _ => constructed) 0 (fun _ => pristine webgl2) [] true.

(** The same context with a script: the results of the coming
    [createTexture], [createFramebuffer] and [checkFramebufferStatus] calls. *)
Definition scripted_context (textures framebuffers : list bool)
  (statuses : list GLenum) : GLContext :=
  mkGL true None None None [] [] [] 0 textures framebuffers statuses [].

Definition scripted_world (textures framebuffers : list bool)
  (statuses : list GLenum) : World :=
  mkWorld (fun _ => constructed) 0
    (fun _ => scripted_context textures framebuffers statuses) [] true.


(** A world of two kinds of context: on context 1 the first
    [createFramebuffer] returns [null], every other context is pristine. *)
Definition mixed_world : World :=
  mkWorld (fun _ => constructed) 0
    (fun gl => if Nat.eqb gl 1 then scripted_context [] [false] []
               else pristine true) [] true.

(** * Vocabulary of the properties *)

(** What [copyBuffer] sends to a WebGL2 context, in order. *)
Definition copyBuffer_calls (bound : option WebGLFramebuffer)
  (src dst : CubismRenderTarget_WebGL) : list GLCall :=
  [ call_getParameter FRAMEBUFFER_BINDING;
    call_bindFramebuffer READ_FRAMEBUFFER (_renderTexture src);
    call_bindFramebuffer DRAW_FRAMEBUFFER (_renderTexture dst);
    call_blitFramebuffer 0%float 0%float (_bufferWidth src) (_bufferHeight src)
      0%float 0%float (_bufferWidth dst) (_bufferHeight dst)
      COLOR_BUFFER_BIT NEAREST;
    call_bindFramebuffer FRAMEBUFFER bound ].

(** Nested drawing into two targets, none of them given a restore target. *)
Definition nested_draw (A B : TargetRef) : M unit :=
  beginDraw A None ;;
  beginDraw B None ;;
  endDraw B ;;
  endDraw A.

(** What [destroyRenderTarget] sends to the object's context. *)
Definition destroy_calls (t : CubismRenderTarget_WebGL) : list GLCall :=
  match _colorBuffer t with
  | Some tex => [call_bindTexture TEXTURE_2D None; call_deleteTexture tex]
  | None => []
  end
  ++ match _renderTexture t with
     | Some fbo =>
         [call_bindFramebuffer FRAMEBUFFER None; call_deleteFramebuffer fbo]
     | None => []
     end.

(** The state in which [destroyRenderTarget] leaves the object's context. *)
Definition destroyed_context (t : CubismRenderTarget_WebGL) (g : GLContext)
  : GLContext :=
  let g1 :=
    match _colorBuffer t with
    | Some tex => Ctx.deleteTexture tex (Ctx.bindTexture TEXTURE_2D None g)
    | None => g
    end in
  match _renderTexture t with
  | Some fbo =>
      Ctx.deleteFramebuffer fbo (Ctx.bindFramebuffer FRAMEBUFFER None g1)
  | None => g1
  end.

(** The size with which a texture was last given an image on a context. *)
Fixpoint texture_size (images : list (WebGLTexture * (number * number)))
  (tex : WebGLTexture) : option (number * number) :=
  match images with
  | [] => None
  | (t, size) :: rest =>
      if texture_eqb t tex then Some size else texture_size rest tex
  end.

(** The invariant of the data model: an object owns nothing, or it owns one
    texture and one framebuffer and its stored size is the size the texture
    was allocated with. *)
Definition owns_nothing (t : CubismRenderTarget_WebGL) : Prop :=
  _colorBuffer t = None /\ _renderTexture t = None.

Definition owns_pair (W : World) (t : CubismRenderTarget_WebGL) : Prop :=
  exists tex fbo gl,
    _colorBuffer t = Some tex
    /\ _renderTexture t = Some fbo
    /\ _gl t = Some gl
    /\ texture_size (textureImages (contexts W gl)) tex
       = Some (_bufferWidth t, _bufferHeight t).

Definition resource_invariant (W : World) (this : TargetRef) : Prop :=
  owns_nothing (targets W this) \/ owns_pair W (targets W this).

(** The context once the texture of an allocation is made and set up. *)
Definition texture_made (gl : GLRef) (w h : number) (g : GLContext)
  : GLContext :=
  Ctx.bindTexture TEXTURE_2D None
    (Ctx.texParameteri TEXTURE_2D TEXTURE_MAG_FILTER LINEAR
       (Ctx.texParameteri TEXTURE_2D TEXTURE_MIN_FILTER LINEAR
          (Ctx.texParameteri TEXTURE_2D TEXTURE_WRAP_T CLAMP_TO_EDGE
             (Ctx.texParameteri TEXTURE_2D TEXTURE_WRAP_S CLAMP_TO_EDGE
                (Ctx.texImage2D TEXTURE_2D 0 RGBA w h 0 RGBA UNSIGNED_BYTE
                   (Ctx.bindTexture TEXTURE_2D
                      (fst (Ctx.createTexture gl g))
                      (snd (Ctx.createTexture gl g)))))))).

(** A relation between the world a method starts in and the world it ends
    in, whether it returns or throws. *)
Definition respects (P : World -> World -> Prop) {A : Type} (m : M A) : Prop :=
  forall W, P W (final_world (m W)).

(** The calls a context received are never forgotten. *)
Definition grows (W W' : World) : Prop :=
  forall c, exists l, calls (contexts W' c) = calls (contexts W c) ++ l.

(** Every object that owns a framebuffer holds a context. *)
Definition context_held (W : World) : Prop :=
  forall this,
    _renderTexture (targets W this) <> None -> _gl (targets W this) <> None.

Definition keeps_context (W W' : World) : Prop :=
  context_held W -> context_held W'.

(** An assignment that leaves [_gl] alone and does not give the object a
    framebuffer. *)
Definition harmless
  (upd : CubismRenderTarget_WebGL -> CubismRenderTarget_WebGL) : Prop :=
  forall t,
    _gl (upd t) = _gl t
    /\ (_renderTexture (upd t) = _renderTexture t
        \/ _renderTexture (upd t) = None).

(** A context call that appends to the list of calls. *)
Definition appends (op : GLContext -> GLContext) : Prop :=
  forall g, exists l, calls (op g) = calls g ++ l.

(** One drawing pass into a target: [beginDraw] and the matching [endDraw]. *)
Definition draw_pass (this : TargetRef) (restoreFbo : option WebGLFramebuffer)
  : M unit :=
  beginDraw this restoreFbo ;;
  endDraw this.

(** What an allocation that succeeds sends to its context once the release
    of what the object owned is over. *)
Definition allocate_calls (tex : option WebGLTexture) (fbo : WebGLFramebuffer)
  (w h : number) : list GLCall :=
  [ call_createTexture tex;
    call_bindTexture TEXTURE_2D tex;
    call_texImage2D TEXTURE_2D 0 RGBA w h 0 RGBA UNSIGNED_BYTE;
    call_texParameteri TEXTURE_2D TEXTURE_WRAP_S CLAMP_TO_EDGE;
    call_texParameteri TEXTURE_2D TEXTURE_WRAP_T CLAMP_TO_EDGE;
    call_texParameteri TEXTURE_2D TEXTURE_MIN_FILTER LINEAR;
    call_texParameteri TEXTURE_2D TEXTURE_MAG_FILTER LINEAR;
    call_bindTexture TEXTURE_2D None;
    call_createFramebuffer (Some fbo);
    call_bindFramebuffer FRAMEBUFFER (Some fbo);
    call_framebufferTexture2D FRAMEBUFFER COLOR_ATTACHMENT0 TEXTURE_2D tex 0;
    call_checkFramebufferStatus FRAMEBUFFER FRAMEBUFFER_COMPLETE ].

(** The object on which an operation is called: the new object for a
    construction, none for the static [copyBuffer]. *)
Definition op_receiver (o : Op) (W : World) : option TargetRef :=
  match o with
  | op_new => Some (nextTarget W)
  | op_allocate this _ _ _ _ => Some this
  | op_beginDraw this _ => Some this
  | op_endDraw this => Some this
  | op_clear this _ _ _ _ => Some this
  | op_destroy this => Some this
  | op_copyBuffer _ _ _ => None
  end.

(** The chain bookkeeping of an object: its index and its two links. *)
Definition bookkeeping (t : CubismRenderTarget_WebGL)
  : number * option TargetRef * option TargetRef :=
  (_offscreenIndex t, _oldOffscreen t, _parentOffscreenRenderTarget t).

(** No object was lost, and the bookkeeping of every object that existed is
    as it was. *)
Definition keeps_bookkeeping (W W' : World) : Prop :=
  nextTarget W <= nextTarget W'
  /\ forall t,
       t < nextTarget W ->
       bookkeeping (targets W' t) = bookkeeping (targets W t).

(** Only one object may have changed. *)
Definition touches_only (this : TargetRef) (W W' : World) : Prop :=
  forall other, other <> this -> targets W' other = targets W other.

(** No object changed. *)
Definition touches_none (W W' : World) : Prop := targets W' = targets W.

(** * Properties *)

(** ** The stores *)

Lemma update_eq {A : Type} (f : nat -> A) (k : nat) (v : A) :
  update f k v k = v.
Proof. unfold update. now rewrite Nat.eqb_refl. Qed.

Lemma update_neq {A : Type} (f : nat -> A) (k x : nat) (v : A) :
  x <> k -> update f k v x = f x.
Proof.
  intros D. unfold update.
  destruct (Nat.eqb_spec x k) as [E | _]; [contradiction | reflexivity].
Qed.

Lemma bind_returned {A B : Type} (m : M A) (k : A -> M B) (w w' : World) (a : A) :
  m w = Returned a w' -> bind m k w = k a w'.
Proof. intros E. unfold bind. now rewrite E. Qed.

Lemma bind_thrown {A B : Type} (m : M A) (k : A -> M B) (w w' : World)
  (e : JsError) :
  m w = Thrown e w' -> bind m k w = Thrown e w'.
Proof. intros E. unfold bind. now rewrite E. Qed.

Lemma bind_bind {A B C : Type} (m : M A) (f : A -> M B) (g : B -> M C)
  (w : World) :
  bind (bind m f) g w = bind m (fun a => bind (f a) g) w.
Proof. unfold bind. destruct (m w); reflexivity. Qed.

Lemma returned_inj {A : Type} (a b : A) (w w' : World) :
  Returned a w = Returned b w' -> a = b /\ w = w'.
Proof. intros H. injection H as -> ->. split; reflexivity. Qed.

(** One statement of a method body, run in a given world. *)
Section Statements.

Context {B : Type} (k : unit -> M B) (W : World).

Lemma run_ret {A : Type} (a : A) (k' : A -> M B) :
  bind (ret a) k' W = k' a W.
Proof. reflexivity. Qed.

Lemma run_read {A : Type} (field : CubismRenderTarget_WebGL -> A)
  (this : TargetRef) (k' : A -> M B) :
  bind (read field this) k' W = k' (field (targets W this)) W.
Proof. reflexivity. Qed.

Lemma run_assign (upd : CubismRenderTarget_WebGL -> CubismRenderTarget_WebGL)
  (this : TargetRef) :
  bind (assign upd this) k W
  = k tt (set_target this (upd (targets W this)) W).
Proof. reflexivity. Qed.

Lemma run_gl_do (gl : GLRef) (op : GLContext -> GLContext) :
  bind (gl_do gl op) k W = k tt (set_context gl (op (contexts W gl)) W).
Proof. reflexivity. Qed.

Lemma run_gl_call {A : Type} (gl : GLRef) (op : GLContext -> A * GLContext)
  (k' : A -> M B) :
  bind (gl_call gl op) k' W
  = k' (fst (op (contexts W gl)))
      (set_context gl (snd (op (contexts W gl))) W).
Proof. reflexivity. Qed.

Lemma run_console_error (message : string) :
  bind (console_error message) k W
  = k tt (mkWorld (targets W) (nextTarget W) (contexts W)
            (console W ++ [message]) (hostDefinesWebGL2 W)).
Proof. reflexivity. Qed.

Lemma run_instanceof_WebGL2 (gl : GLRef) (k' : bool -> M B) :
  isWebGL2 (contexts W gl) = true ->
  bind (instanceof_WebGL2RenderingContext gl) k' W = k' true W.
Proof.
  intros E. unfold bind, instanceof_WebGL2RenderingContext. now rewrite E.
Qed.

Lemma run_instanceof_WebGL1 (gl : GLRef) (k' : bool -> M B) :
  isWebGL2 (contexts W gl) = false ->
  hostDefinesWebGL2 W = true ->
  bind (instanceof_WebGL2RenderingContext gl) k' W = k' false W.
Proof.
  intros E H. unfold bind, instanceof_WebGL2RenderingContext.
  now rewrite E, H.
Qed.

Lemma run_instanceof_undefined (gl : GLRef) (k' : bool -> M B) :
  isWebGL2 (contexts W gl) = false ->
  hostDefinesWebGL2 W = false ->
  bind (instanceof_WebGL2RenderingContext gl) k' W
  = Thrown (ReferenceError "WebGL2RenderingContext is not defined") W.
Proof.
  intros E H. unfold bind, instanceof_WebGL2RenderingContext.
  now rewrite E, H.
Qed.

Lemma run_throw {A : Type} (e : JsError) (k' : A -> M B) :
  bind (throw e) k' W = Thrown e W.
Proof. reflexivity. Qed.

Lemma run_this_gl (this : TargetRef) (gl : GLRef) (k' : GLRef -> M B) :
  _gl (targets W this) = Some gl ->
  bind (this_gl this) k' W = k' gl W.
Proof. intros E. unfold bind, this_gl. now rewrite E. Qed.

Lemma run_this_gl_null (this : TargetRef) (k' : GLRef -> M B) :
  _gl (targets W this) = None ->
  bind (this_gl this) k' W
  = Thrown (TypeError "Cannot read properties of null") W.
Proof. intros E. unfold bind, this_gl. now rewrite E. Qed.

End Statements.

(** Reading what was just stored, in an object or in a world. *)
Ltac js_simpl_once :=
  cbn [targets contexts nextTarget console hostDefinesWebGL2
       set_target set_context
       fst snd negb truthy final_world
       _gl _colorBuffer _renderTexture _bufferWidth _bufferHeight _oldFbo
       _offscreenIndex _parentOffscreenRenderTarget _oldOffscreen
       Field.set_gl Field.set_colorBuffer Field.set_renderTexture
       Field.set_bufferWidth Field.set_bufferHeight Field.set_oldFbo];
  rewrite ?update_eq;
  try rewrite !update_neq by assumption.

Ltac js_simpl := repeat (progress js_simpl_once).

(** Symbolic execution of a method body, one statement at a time.  The
    access to [this._gl] is resolved from what is known of the field. *)
Ltac js_step :=
  first
    [ rewrite bind_bind
    | rewrite run_ret
    | rewrite run_read
    | rewrite run_assign
    | rewrite run_gl_do
    | rewrite run_gl_call
    | rewrite run_console_error
    | rewrite run_instanceof_WebGL2 by (js_simpl; assumption)
    | rewrite run_instanceof_WebGL1 by (js_simpl; assumption)
    | rewrite run_instanceof_undefined by (js_simpl; assumption)
    | rewrite run_throw
    | erewrite run_this_gl by (js_simpl; eassumption)
    | erewrite run_this_gl_null by (js_simpl; eassumption) ];
  cbv beta; js_simpl.

Ltac js_run := js_simpl; repeat js_step.

(** The last statement of a body. *)
Ltac js_last :=
  unfold gl_do, gl_call, read, assign, console_error, ret, throw;
  js_simpl.

(** The same, using what is known of the fields of [this]. *)
Ltac js_facts E1 E2 E3 :=
  js_simpl; rewrite ?E1, ?E2, ?E3;
  repeat (js_step; rewrite ?E1, ?E2, ?E3).

(** ** What a context call leaves *)

Lemma drawFramebuffer_bind_FRAMEBUFFER (f : option WebGLFramebuffer)
  (g : GLContext) :
  drawFramebuffer (Ctx.bindFramebuffer FRAMEBUFFER f g) = f.
Proof. reflexivity. Qed.

Lemma calls_bindFramebuffer (target : GLenum) (f : option WebGLFramebuffer)
  (g : GLContext) :
  calls (Ctx.bindFramebuffer target f g)
  = calls g ++ [call_bindFramebuffer target f].
Proof.
  unfold Ctx.bindFramebuffer.
  destruct (Z.eqb target FRAMEBUFFER), (Z.eqb target DRAW_FRAMEBUFFER),
    (Z.eqb target READ_FRAMEBUFFER); reflexivity.
Qed.

(** ** copyBuffer *)

(** C10. With [src] or [dst] absent, [copyBuffer] returns at once: it does
    not throw and leaves the world as it was, so no context received a call.
    Nothing is asked of the context, so this holds on a context without blit
    support as well: the absence test comes before the capability test. *)
Theorem copyBuffer_absent_argument (gl : GLRef) (src dst : option TargetRef)
  (W : World) :
  src = None \/ dst = None ->
  copyBuffer gl src dst W = Returned tt W.
Proof.
  intros [-> | ->]; [reflexivity | destruct src; reflexivity].
Qed.

Lemma copyBuffer_absent_argument_witness :
  isWebGL2 (contexts (empty_world false) 0) = false
  /\ copyBuffer 0 None (Some 1) (empty_world false)
     = Returned tt (empty_world false).
Proof.
  split; [reflexivity | apply copyBuffer_absent_argument; left; reflexivity].
Defined.




(** C7. On a WebGL2 context, [copyBuffer] with both targets present returns
    normally, and the context received exactly the five calls of
    [copyBuffer_calls]: one blit, from (0,0,src width,src height) to
    (0,0,dst width,dst height), with COLOR_BUFFER_BIT and NEAREST, between
    the query of the binding and its restoration.  Afterwards the active
    framebuffer is the one that was bound at entry.  No object changed and no
    other context was touched. *)
Theorem copyBuffer_blits_and_restores (gl : GLRef) (src dst : TargetRef)
  (W : World) :
  isWebGL2 (contexts W gl) = true ->
  exists W',
    copyBuffer gl (Some src) (Some dst) W = Returned tt W'
    /\ calls (contexts W' gl)
       = calls (contexts W gl)
         ++ copyBuffer_calls (drawFramebuffer (contexts W gl))
              (targets W src) (targets W dst)
    /\ List.length (filter is_call_blitFramebuffer
                 (copyBuffer_calls (drawFramebuffer (contexts W gl))
                    (targets W src) (targets W dst))) = 1
    /\ drawFramebuffer (contexts W' gl) = drawFramebuffer (contexts W gl)
    /\ targets W' = targets W
    /\ (forall other, other <> gl -> contexts W' other = contexts W other).
Proof.
  intros E. eexists. split.
  - unfold copyBuffer. js_run. reflexivity.
  - js_run. repeat split.
    + cbn. rewrite <- !app_assoc. reflexivity.
    + intros other D. js_run. reflexivity.
Qed.

Lemma copyBuffer_blits_and_restores_witness :
  exists W',
    copyBuffer 0 (Some 0) (Some 1)
      (run [op_new; op_new;
            op_allocate 0 0 64%float 32%float None;
            op_allocate 1 0 16%float 8%float None] (empty_world true))
    = Returned tt W'
    /\ filter is_call_blitFramebuffer (calls (contexts W' 0))
       = [call_blitFramebuffer 0%float 0%float 64%float 32%float
            0%float 0%float 16%float 8%float COLOR_BUFFER_BIT NEAREST]
    /\ drawFramebuffer (contexts W' 0) = Some (mkFramebuffer 0 3).
Proof.
  destruct (copyBuffer_blits_and_restores 0 0 1
              (run [op_new; op_new;
                    op_allocate 0 0 64%float 32%float None;
                    op_allocate 1 0 16%float 8%float None] (empty_world true))
              eq_refl)
    as (W' & Hrun & Hcalls & _ & Hbound & _).
  exists W'. split; [exact Hrun | split].
  - rewrite Hcalls. reflexivity.
  - rewrite Hbound. reflexivity.
Defined.

(** ** beginDraw and endDraw *)

(** [endDraw] on an object that holds a context: one call on that context. *)
Lemma endDraw_with_context (this : TargetRef) (gl : GLRef) (W : World) :
  _gl (targets W this) = Some gl ->
  endDraw this W
  = Returned tt
      (set_context gl
         (Ctx.bindFramebuffer FRAMEBUFFER (_oldFbo (targets W this))
            (contexts W gl)) W).
Proof.
  intros E. unfold endDraw. js_run. js_last. reflexivity.
Qed.

(** [endDraw] on an object that holds no context: the access to [this._gl]
    throws before anything is sent. *)
Lemma endDraw_without_context (this : TargetRef) (W : World) :
  _gl (targets W this) = None ->
  endDraw this W = Thrown (TypeError "Cannot read properties of null") W.
Proof.
  intros E. unfold endDraw. js_run. reflexivity.
Qed.

(** [beginDraw] on an object that owns no framebuffer returns at once. *)
Lemma beginDraw_invalid (this : TargetRef) (restoreFbo : option WebGLFramebuffer)
  (W : World) :
  _renderTexture (targets W this) = None ->
  beginDraw this restoreFbo W = Returned tt W.
Proof.
  intros E. unfold beginDraw. js_run. rewrite E. reflexivity.
Qed.

(** [beginDraw] with no restore target, on a valid object: the binding found
    is saved in the object and the object's framebuffer is bound. *)
Lemma beginDraw_valid (this : TargetRef) (gl : GLRef) (fbo : WebGLFramebuffer)
  (W : World) :
  _gl (targets W this) = Some gl ->
  _renderTexture (targets W this) = Some fbo ->
  beginDraw this None W
  = Returned tt
      (set_context gl
         (Ctx.bindFramebuffer FRAMEBUFFER (Some fbo)
            (Ctx.record_call (call_getParameter FRAMEBUFFER_BINDING)
               (contexts W gl)))
         (set_target this
            (Field.set_oldFbo (drawFramebuffer (contexts W gl)) (targets W this))
            (set_context gl
               (Ctx.record_call (call_getParameter FRAMEBUFFER_BINDING)
                  (contexts W gl)) W))).
Proof.
  intros Egl Ert. unfold beginDraw. js_run. rewrite Ert. js_run.
  rewrite Ert. js_last. reflexivity.
Qed.

(** C6 (as amended).  For every render target that holds a context, valid or
    not, [endDraw] returns normally after one call on that context,
    [bindFramebuffer(FRAMEBUFFER, _oldFbo)], which leaves the saved binding
    as the active framebuffer.  No object changes and no other context is
    touched. *)
Theorem endDraw_rebinds_saved_binding (this : TargetRef) (gl : GLRef)
  (W : World) :
  _gl (targets W this) = Some gl ->
  exists W',
    endDraw this W = Returned tt W'
    /\ calls (contexts W' gl)
       = calls (contexts W gl)
         ++ [call_bindFramebuffer FRAMEBUFFER (_oldFbo (targets W this))]
    /\ drawFramebuffer (contexts W' gl) = _oldFbo (targets W this)
    /\ targets W' = targets W
    /\ (forall other, other <> gl -> contexts W' other = contexts W other).
Proof.
  intros E. eexists. split; [apply (endDraw_with_context this W E) |].
  js_run. repeat split.
  intros other D. js_run. reflexivity.
Qed.

Lemma endDraw_rebinds_saved_binding_witness :
  let W := run [op_new; op_new;
                op_allocate 0 0 64%float 32%float None;
                op_allocate 1 0 16%float 8%float None;
                op_beginDraw 0 None;
                op_destroy 0] (empty_world true) in
  isValid 0 W = Returned false W
  /\ drawFramebuffer (contexts W 0) = None
  /\ exists W',
       endDraw 0 W = Returned tt W'
       /\ drawFramebuffer (contexts W' 0) = Some (mkFramebuffer 0 3).
Proof.
  intros W. split; [reflexivity | split; [reflexivity |]].
  destruct (endDraw_rebinds_saved_binding 0 W (gl := 0) eq_refl)
    as (W' & Hrun & _ & Hbound & _).
  exists W'. split; [exact Hrun | rewrite Hbound; reflexivity].
Defined.

(** C6 as stated does not hold of every render target: an object that was
    constructed and never allocated holds no context, and [endDraw] on it
    throws a TypeError without rebinding anything. *)
Lemma endDraw_on_constructed_target_throws :
  let W := run [op_new] (empty_world true) in
  endDraw 0 W = Thrown (TypeError "Cannot read properties of null") W
  /\ calls (contexts W 0) = [].
Proof. split; reflexivity. Qed.

(** C5 (as amended).  On a render target that owns no framebuffer,
    [beginDraw] returns normally and leaves the world as it was: no context
    call, no binding changed.  [endDraw] on such a target, when the target
    holds a context, returns normally as well, but it is not a no-op: it sends
    [bindFramebuffer(FRAMEBUFFER, _oldFbo)], so the active framebuffer
    afterwards is the saved binding, and it is the one bound before exactly
    when that one was the saved binding already. *)
Theorem draw_on_invalid_target (this : TargetRef)
  (restoreFbo : option WebGLFramebuffer) (W : World) :
  _renderTexture (targets W this) = None ->
  beginDraw this restoreFbo W = Returned tt W
  /\ forall gl,
       _gl (targets W this) = Some gl ->
       exists W',
         endDraw this W = Returned tt W'
         /\ drawFramebuffer (contexts W' gl) = _oldFbo (targets W this)
         /\ (drawFramebuffer (contexts W' gl) = drawFramebuffer (contexts W gl)
             <-> drawFramebuffer (contexts W gl) = _oldFbo (targets W this)).
Proof.
  intros E. split; [apply (beginDraw_invalid this restoreFbo W E) |].
  intros gl Egl. eexists. split; [apply (endDraw_with_context this W Egl) |].
  js_run. rewrite drawFramebuffer_bind_FRAMEBUFFER.
  split; [reflexivity | split; intros H; congruence].
Qed.

Lemma draw_on_invalid_target_witness :
  let W := run [op_new; op_allocate 0 0 64%float 32%float None; op_destroy 0]
             (empty_world true) in
  beginDraw 0 None W = Returned tt W
  /\ exists W',
       endDraw 0 W = Returned tt W'
       /\ drawFramebuffer (contexts W' 0) = drawFramebuffer (contexts W 0).
Proof.
  intros W.
  destruct (draw_on_invalid_target 0 None W eq_refl) as [Hbegin Hend].
  split; [exact Hbegin |].
  destruct (Hend 0 eq_refl) as (W' & Hrun & _ & Hiff).
  exists W'. split; [exact Hrun | apply Hiff; reflexivity].
Defined.

(** C5 as stated does not hold: target 0 was allocated and destroyed, so it
    owns no framebuffer; target 1 is valid and its framebuffer is bound.
    [endDraw] on target 0 returns normally and leaves the default framebuffer
    bound instead. *)
Lemma endDraw_on_invalid_target_alters_binding :
  let W := run [op_new; op_new;
                op_allocate 0 0 64%float 32%float None;
                op_destroy 0;
                op_allocate 1 0 16%float 8%float None;
                op_beginDraw 1 None] (empty_world true) in
  _renderTexture (targets W 0) = None
  /\ drawFramebuffer (contexts W 0) = Some (mkFramebuffer 0 3)
  /\ exists W',
       endDraw 0 W = Returned tt W'
       /\ drawFramebuffer (contexts W' 0) = None
       /\ drawFramebuffer (contexts W' 0) <> drawFramebuffer (contexts W 0).
Proof.
  intros W. split; [vm_compute; reflexivity |].
  split; [vm_compute; reflexivity |].
  exists (final_world (endDraw 0 W)).
  vm_compute. repeat split. discriminate.
Qed.

(** C4. For two distinct valid render targets of one context, the sequence
    [A.beginDraw(); B.beginDraw(); B.endDraw(); A.endDraw()] returns normally
    and leaves bound the framebuffer that was bound before it.  The way back
    goes through the two objects: A keeps the binding found at the start and
    B keeps A's framebuffer. *)
Theorem nested_draw_restores_binding (A B : TargetRef) (gl : GLRef)
  (fboA fboB : WebGLFramebuffer) (W : World) :
  A <> B ->
  _gl (targets W A) = Some gl ->
  _gl (targets W B) = Some gl ->
  _renderTexture (targets W A) = Some fboA ->
  _renderTexture (targets W B) = Some fboB ->
  exists W',
    nested_draw A B W = Returned tt W'
    /\ drawFramebuffer (contexts W' gl) = drawFramebuffer (contexts W gl)
    /\ _oldFbo (targets W' A) = drawFramebuffer (contexts W gl)
    /\ _oldFbo (targets W' B) = Some fboA.
Proof.
  intros D EglA EglB ErtA ErtB.
  assert (DBA : B <> A) by congruence.
  unfold nested_draw.
  eexists. split.
  - erewrite bind_returned by (apply (beginDraw_valid A W EglA ErtA)).
    erewrite bind_returned
      by (apply beginDraw_valid with (gl := gl) (fbo := fboB);
          js_run; assumption).
    erewrite bind_returned
      by (apply endDraw_with_context with (gl := gl); js_run; assumption).
    apply endDraw_with_context with (gl := gl). js_run. assumption.
  - js_run. rewrite !drawFramebuffer_bind_FRAMEBUFFER.
    repeat split; reflexivity.
Qed.

Lemma nested_draw_restores_binding_witness :
  let W := run [op_new; op_new; op_new;
                op_allocate 0 0 64%float 32%float None;
                op_allocate 1 0 16%float 8%float None;
                op_allocate 2 0 4%float 4%float None] (empty_world true) in
  drawFramebuffer (contexts W 0) = Some (mkFramebuffer 0 5)
  /\ exists W',
       nested_draw 0 1 W = Returned tt W'
       /\ drawFramebuffer (contexts W' 0) = Some (mkFramebuffer 0 5).
Proof.
  intros W. split; [reflexivity |].
  assert (D : 0 <> 1) by discriminate.
  destruct (nested_draw_restores_binding (A := 0) (B := 1) (gl := 0)
              (fboA := mkFramebuffer 0 1) (fboB := mkFramebuffer 0 3) W
              D eq_refl eq_refl eq_refl eq_refl)
    as (W' & Hrun & Hbound & _).
  exists W'. split; [exact Hrun | rewrite Hbound; reflexivity].
Defined.

(** X17. The two targets of a nested pass have to be two objects.  With one
    object in both places the second [beginDraw] overwrites the binding saved
    by the first, and the object's own framebuffer stays bound at the end. *)
Lemma nested_draw_on_one_target (A : TargetRef) (gl : GLRef)
  (fboA : WebGLFramebuffer) (W : World) :
  _gl (targets W A) = Some gl ->
  _renderTexture (targets W A) = Some fboA ->
  exists W',
    nested_draw A A W = Returned tt W'
    /\ drawFramebuffer (contexts W' gl) = Some fboA.
Proof.
  intros Egl Ert. unfold nested_draw.
  eexists. split.
  - erewrite bind_returned by (apply (beginDraw_valid A W Egl Ert)).
    erewrite bind_returned
      by (apply beginDraw_valid with (gl := gl) (fbo := fboA);
          js_run; assumption).
    erewrite bind_returned
      by (apply endDraw_with_context with (gl := gl); js_run; assumption).
    apply endDraw_with_context with (gl := gl). js_run. assumption.
  - js_run. rewrite !drawFramebuffer_bind_FRAMEBUFFER. reflexivity.
Qed.

Lemma nested_draw_on_one_target_witness :
  let W := run [op_new; op_new;
                op_allocate 0 0 64%float 32%float None;
                op_allocate 1 0 16%float 8%float None] (empty_world true) in
  drawFramebuffer (contexts W 0) = Some (mkFramebuffer 0 3)
  /\ exists W',
       nested_draw 0 0 W = Returned tt W'
       /\ drawFramebuffer (contexts W' 0) = Some (mkFramebuffer 0 1).
Proof.
  intros W. split; [vm_compute; reflexivity |].
  apply (@nested_draw_on_one_target 0 0 (mkFramebuffer 0 1) W);
    vm_compute; reflexivity.
Defined.

(** ** destroyRenderTarget *)

Lemma calls_destroyed_context (t : CubismRenderTarget_WebGL) (g : GLContext) :
  calls (destroyed_context t g) = calls g ++ destroy_calls t.
Proof.
  unfold destroyed_context, destroy_calls.
  destruct (_colorBuffer t), (_renderTexture t); cbn;
    rewrite <- ?app_assoc, ?app_nil_r; reflexivity.
Qed.

(** An object that owns nothing: nothing is done, whether or not the object
    holds a context. *)
Lemma destroy_nothing (this : TargetRef) (W : World) :
  _colorBuffer (targets W this) = None ->
  _renderTexture (targets W this) = None ->
  destroyRenderTarget this W = Returned tt W.
Proof.
  intros Ecb Ert. unfold destroyRenderTarget.
  js_facts Ecb Ert Ert. reflexivity.
Qed.

(** An object that holds a context: both resources are released on that
    context and both fields are cleared; nothing throws. *)
Lemma destroy_with_context (this : TargetRef) (gl : GLRef) (W : World) :
  _gl (targets W this) = Some gl ->
  exists W',
    destroyRenderTarget this W = Returned tt W'
    /\ targets W' this
       = Field.set_renderTexture None
           (Field.set_colorBuffer None (targets W this))
    /\ contexts W' gl = destroyed_context (targets W this) (contexts W gl)
    /\ (forall other, other <> this -> targets W' other = targets W other)
    /\ (forall other, other <> gl -> contexts W' other = contexts W other)
    /\ console W' = console W.
Proof.
  intros Egl. unfold destroyRenderTarget, destroyed_context.
  destruct (_colorBuffer (targets W this)) as [tex |] eqn:Ecb;
    destruct (_renderTexture (targets W this)) as [fbo |] eqn:Ert;
    eexists; (split; [js_facts Egl Ecb Ert; js_last; reflexivity |]);
    js_facts Egl Ecb Ert;
    (repeat split; try (intros other D; js_run; reflexivity));
    revert Egl Ecb Ert;
    unfold Field.set_colorBuffer, Field.set_renderTexture;
    destruct (targets W this); cbn; intros; subst; reflexivity.
Qed.

(** An object that owns a texture and holds no context: the access to
    [this._gl] throws, and the texture is neither released nor forgotten. *)
Lemma destroy_without_context (this : TargetRef) (tex : WebGLTexture)
  (W : World) :
  _gl (targets W this) = None ->
  _colorBuffer (targets W this) = Some tex ->
  destroyRenderTarget this W
  = Thrown (TypeError "Cannot read properties of null") W.
Proof.
  intros Egl Ecb. unfold destroyRenderTarget.
  js_facts Ecb Ecb Ecb. reflexivity.
Qed.

(** ** createOffscreenRenderTarget *)

(** Case analysis on the next test the body makes. *)
Ltac js_case :=
  match goal with
  | |- context [match ?x with Some _ => _ | None => _ end] => destruct x eqn:?
  | |- context [if ?b then _ else _] => destruct b eqn:?
  end.

(** A call that returns [true] went through the last branch of the body: the
    object holds the context it was given, a framebuffer, and the size it was
    given. *)
Lemma allocate_success (this : TargetRef) (gl : GLRef) (w h : number)
  (prev : option WebGLFramebuffer) (W W1 : World) :
  createOffscreenRenderTarget this gl w h prev W = Returned true W1 ->
  _gl (targets W1 this) = Some gl
  /\ (exists fbo, _renderTexture (targets W1 this) = Some fbo)
  /\ _bufferWidth (targets W1 this) = w
  /\ _bufferHeight (targets W1 this) = h.
Proof.
  unfold createOffscreenRenderTarget.
  destruct (destroyRenderTarget this W) as [[] W0 | e W0] eqn:Hd.
  2:{ erewrite bind_thrown by exact Hd. discriminate. }
  erewrite bind_returned by exact Hd. js_run.
  js_case; [| js_run; js_last; discriminate].
  js_run. js_case.
  - js_run.
    match goal with
    | |- context [bind (destroyRenderTarget ?t) _ ?w] =>
        destruct (destroyRenderTarget t w) as [[] W2 | e W2] eqn:Hd2
    end.
    + erewrite bind_returned by exact Hd2. js_last. discriminate.
    + erewrite bind_thrown by exact Hd2. discriminate.
  - js_run. js_last. intros H. apply returned_inj in H.
    destruct H as [_ <-]. js_simpl.
    repeat split. eexists. reflexivity.
Qed.

(** C3. If [createOffscreenRenderTarget(gl, w, h, prev)] returns [true], then
    [isValid()] is [true] and the two size accessors return [w] and [h];
    [destroyRenderTarget()] then returns normally and leaves [isValid()]
    [false]; and a second [destroyRenderTarget()] returns normally in the
    very world it started from: no context received a call and nothing
    changed.  The sizes need not be positive for this. *)
Theorem allocate_destroy_round_trip (this : TargetRef) (gl : GLRef)
  (w h : number) (prev : option WebGLFramebuffer) (W W1 : World) :
  createOffscreenRenderTarget this gl w h prev W = Returned true W1 ->
  isValid this W1 = Returned true W1
  /\ getBufferWidth this W1 = Returned w W1
  /\ getBufferHeight this W1 = Returned h W1
  /\ exists W2,
       destroyRenderTarget this W1 = Returned tt W2
       /\ isValid this W2 = Returned false W2
       /\ destroyRenderTarget this W2 = Returned tt W2.
Proof.
  intros H.
  destruct (allocate_success _ _ _ _ _ _ H) as (Egl & [fbo Ert] & Ew & Eh).
  destruct (destroy_with_context this W1 Egl) as (W2 & Hd & Et & _).
  assert (Ecb2 : _colorBuffer (targets W2 this) = None)
    by (rewrite Et; reflexivity).
  assert (Ert2 : _renderTexture (targets W2 this) = None)
    by (rewrite Et; reflexivity).
  repeat split.
  - unfold isValid. js_run. js_last. now rewrite Ert.
  - unfold getBufferWidth. js_last. now rewrite Ew.
  - unfold getBufferHeight. js_last. now rewrite Eh.
  - exists W2. repeat split.
    + exact Hd.
    + unfold isValid. js_run. js_last. now rewrite Ert2.
    + apply destroy_nothing; assumption.
Qed.

Lemma allocate_destroy_round_trip_witness :
  exists W1,
    createOffscreenRenderTarget 0 0 64%float 32%float None
      (run [op_new] (empty_world true)) = Returned true W1
    /\ isValid 0 W1 = Returned true W1
    /\ getBufferWidth 0 W1 = Returned 64%float W1
    /\ getBufferHeight 0 W1 = Returned 32%float W1.
Proof.
  assert (H : createOffscreenRenderTarget 0 0 64%float 32%float None
                (run [op_new] (empty_world true))
              = Returned true
                  (run [op_new; op_allocate 0 0 64%float 32%float None]
                     (empty_world true)))
    by (vm_compute; reflexivity).
  eexists. split; [exact H |].
  destruct (allocate_destroy_round_trip _ _ _ _ _ _ H) as (Hv & Hw & Hh & _).
  repeat split; assumption.
Defined.

(** ** Failed allocations *)

(** C1, at a failing input.  Targets 0 and 1 were allocated; the framebuffer
    of target 1 is bound.  Target 0 is allocated again, with the bound
    framebuffer as [previousFramebuffer], and [createFramebuffer] returns
    [null].  The call returns [false], but the default framebuffer is bound
    instead of [previousFramebuffer], and the texture made by the call is
    still alive on the context and still held by the object, so
    [getColorBuffer()] is not absent. *)
Theorem allocate_without_framebuffer_keeps_texture :
  let W := run [op_new; op_new;
                op_allocate 0 0 64%float 32%float None;
                op_allocate 1 0 16%float 8%float None]
             (scripted_world [] [true; true; false] []) in
  let previousFramebuffer := Some (mkFramebuffer 0 3) in
  let tex := mkTexture 0 4 in
  drawFramebuffer (contexts W 0) = previousFramebuffer
  /\ exists W',
       createOffscreenRenderTarget 0 0 64%float 32%float previousFramebuffer W
       = Returned false W'
       /\ drawFramebuffer (contexts W' 0) = None
       /\ drawFramebuffer (contexts W' 0) <> previousFramebuffer
       /\ getColorBuffer 0 W' = Returned (Some tex) W'
       /\ In tex (liveTextures (contexts W' 0))
       /\ ~ In (call_deleteTexture tex) (calls (contexts W' 0))
       /\ isValid 0 W' = Returned false W'.
Proof.
  intros W previousFramebuffer tex.
  split; [vm_compute; reflexivity |].
  exists (final_world
            (createOffscreenRenderTarget 0 0 64%float 32%float
               previousFramebuffer W)).
  vm_compute. repeat split; try discriminate.
  - left. reflexivity.
  - intros H.
    repeat (destruct H as [H | H]; [discriminate H |]). exact H.
Qed.

(** The same failure on an object that was just constructed: the call
    returns [false] and the object keeps a texture while it holds neither a
    framebuffer nor a context. *)
Lemma first_allocate_without_framebuffer :
  let W := run [op_new] (scripted_world [] [false] []) in
  exists W',
    createOffscreenRenderTarget 0 0 64%float 32%float None W
    = Returned false W'
    /\ targets W' 0
       = mkTarget None (Some (mkTexture 0 0)) None 0%float 0%float None
           (-1)%float None None
    /\ liveTextures (contexts W' 0) = [mkTexture 0 0]
    /\ console W' = ["Failed to create framebuffer"%string].
Proof.
  intros W.
  exists (final_world
            (createOffscreenRenderTarget 0 0 64%float 32%float None W)).
  vm_compute. repeat split.
Qed.

(** The other failure, on an object that was just constructed: the
    framebuffer is created and found incomplete.  The previous binding is
    restored and the framebuffer deleted, but the object holds no context
    yet, so the [destroyRenderTarget] of the rollback throws: the call does
    not return [false], and the texture is kept. *)
Lemma first_allocate_incomplete_throws :
  let W := run [op_new] (scripted_world [] [] [FRAMEBUFFER_UNSUPPORTED]) in
  exists W',
    createOffscreenRenderTarget 0 0 64%float 32%float None W
    = Thrown (TypeError "Cannot read properties of null") W'
    /\ targets W' 0
       = mkTarget None (Some (mkTexture 0 0)) None 0%float 0%float None
           (-1)%float None None
    /\ liveTextures (contexts W' 0) = [mkTexture 0 0]
    /\ liveFramebuffers (contexts W' 0) = []
    /\ console W' = ["Framebuffer is not complete"%string].
Proof.
  intros W.
  exists (final_world
            (createOffscreenRenderTarget 0 0 64%float 32%float None W)).
  vm_compute. repeat split.
Qed.

(** C2, at a failing input.  After a construction and one allocation in
    which [createFramebuffer] returns [null], the object is in neither state
    of the invariant: it owns a texture and no framebuffer. *)
Theorem resource_invariant_broken_by_failed_allocate :
  let W := run [op_new; op_allocate 0 0 64%float 32%float None]
             (scripted_world [] [false] []) in
  _colorBuffer (targets W 0) = Some (mkTexture 0 0)
  /\ _renderTexture (targets W 0) = None
  /\ ~ resource_invariant W 0.
Proof.
  intros W.
  assert (Ecb : _colorBuffer (targets W 0) = Some (mkTexture 0 0))
    by (vm_compute; reflexivity).
  assert (Ert : _renderTexture (targets W 0) = None)
    by (vm_compute; reflexivity).
  split; [exact Ecb | split; [exact Ert |]].
  intros [[Hcb _] | (tex & fbo & gl & _ & Hrt & _)]; congruence.
Qed.

(** C9, at a failing input.  The first allocation of an object failed for
    want of a framebuffer and left it a texture.  The second allocation
    throws at its first statement, in the world it started from: the texture
    of the first allocation is alive and no call deleted it. *)
Theorem reallocate_after_failed_allocate_throws :
  let W := run [op_new; op_allocate 0 0 64%float 32%float None]
             (scripted_world [] [false] []) in
  createOffscreenRenderTarget 0 0 64%float 32%float None W
  = Thrown (TypeError "Cannot read properties of null") W
  /\ _colorBuffer (targets W 0) = Some (mkTexture 0 0)
  /\ In (mkTexture 0 0) (liveTextures (contexts W 0))
  /\ ~ In (call_deleteTexture (mkTexture 0 0)) (calls (contexts W 0)).
Proof.
  intros W.
  assert (Egl : _gl (targets W 0) = None) by (vm_compute; reflexivity).
  assert (Ecb : _colorBuffer (targets W 0) = Some (mkTexture 0 0))
    by (vm_compute; reflexivity).
  split; [| split; [exact Ecb |]].
  - unfold createOffscreenRenderTarget.
    apply bind_thrown. apply (destroy_without_context 0 W Egl Ecb).
  - vm_compute. split; [left; reflexivity |].
    intros H.
    repeat (destruct H as [H | H]; [discriminate H |]). exact H.
Qed.

(** ** Rollback *)

Lemma texture_eqb_refl (t : WebGLTexture) : texture_eqb t t = true.
Proof. unfold texture_eqb. now rewrite !Nat.eqb_refl. Qed.

Lemma framebuffer_eqb_refl (f : WebGLFramebuffer) : framebuffer_eqb f f = true.
Proof. unfold framebuffer_eqb. now rewrite !Nat.eqb_refl. Qed.

Lemma incl_filter {A : Type} (p : A -> bool) (l : list A) : incl (filter p l) l.
Proof. intros x H. apply filter_In in H. tauto. Qed.

(** What [destroyRenderTarget] leaves of a context: the objects it deleted
    are gone, the scripts are untouched, and the default framebuffer is bound
    if the object had a framebuffer. *)
Lemma destroyed_context_frame (t : CubismRenderTarget_WebGL) (g : GLContext) :
  liveTextures (destroyed_context t g)
  = match _colorBuffer t with
    | Some tex => filter (fun x => negb (texture_eqb x tex)) (liveTextures g)
    | None => liveTextures g
    end
  /\ liveFramebuffers (destroyed_context t g)
     = match _renderTexture t with
       | Some fbo =>
           filter (fun x => negb (framebuffer_eqb x fbo)) (liveFramebuffers g)
       | None => liveFramebuffers g
       end
  /\ framebufferScript (destroyed_context t g) = framebufferScript g
  /\ statusScript (destroyed_context t g) = statusScript g
  /\ drawFramebuffer (destroyed_context t g)
     = match _renderTexture t with
       | Some _ => None
       | None => drawFramebuffer g
       end.
Proof.
  unfold destroyed_context.
  destruct (_colorBuffer t), (_renderTexture t); cbn; repeat split.
Qed.

Lemma destroyed_context_incl (t : CubismRenderTarget_WebGL) (g : GLContext) :
  incl (liveTextures (destroyed_context t g)) (liveTextures g)
  /\ incl (liveFramebuffers (destroyed_context t g)) (liveFramebuffers g).
Proof.
  destruct (destroyed_context_frame t g) as (-> & -> & _).
  destruct (_colorBuffer t), (_renderTexture t);
    split; auto using incl_refl, incl_filter.
Qed.

Lemma texture_made_frame (gl : GLRef) (w h : number) (g : GLContext) :
  liveTextures (texture_made gl w h g)
  = match fst (Ctx.createTexture gl g) with
    | Some tex => tex :: liveTextures g
    | None => liveTextures g
    end
  /\ liveFramebuffers (texture_made gl w h g) = liveFramebuffers g
  /\ framebufferScript (texture_made gl w h g) = framebufferScript g
  /\ statusScript (texture_made gl w h g) = statusScript g
  /\ drawFramebuffer (texture_made gl w h g) = drawFramebuffer g.
Proof.
  unfold texture_made, Ctx.createTexture.
  destruct (Ctx.scripted true (textureScript g)); cbn; repeat split.
Qed.

Lemma createFramebuffer_frame (gl : GLRef) (g : GLContext) :
  liveTextures (snd (Ctx.createFramebuffer gl g)) = liveTextures g
  /\ liveFramebuffers (snd (Ctx.createFramebuffer gl g))
     = match fst (Ctx.createFramebuffer gl g) with
       | Some fbo => fbo :: liveFramebuffers g
       | None => liveFramebuffers g
       end
  /\ statusScript (snd (Ctx.createFramebuffer gl g)) = statusScript g
  /\ (fst (Ctx.createFramebuffer gl g) = None
      -> Ctx.scripted true (framebufferScript g) = false).
Proof.
  unfold Ctx.createFramebuffer.
  destruct (Ctx.scripted true (framebufferScript g)); cbn; repeat split;
    discriminate.
Qed.

(** The status read once a framebuffer is bound and given its attachment is
    the one the script of the context holds. *)
Lemma status_of_new_framebuffer (cb : option WebGLTexture)
  (fbo : WebGLFramebuffer) (g : GLContext) :
  fst (Ctx.checkFramebufferStatus FRAMEBUFFER
         (Ctx.framebufferTexture2D FRAMEBUFFER COLOR_ATTACHMENT0 TEXTURE_2D
            cb 0
            (Ctx.bindFramebuffer FRAMEBUFFER (Some fbo) g)))
  = Ctx.scripted FRAMEBUFFER_COMPLETE (statusScript g).
Proof. reflexivity. Qed.

Lemma filter_out_head_texture (tex : WebGLTexture) (l : list WebGLTexture) :
  filter (fun x => negb (texture_eqb x tex)) (tex :: l)
  = filter (fun x => negb (texture_eqb x tex)) l.
Proof. cbn. now rewrite texture_eqb_refl. Qed.

Lemma filter_out_head_framebuffer (fbo : WebGLFramebuffer)
  (l : list WebGLFramebuffer) :
  filter (fun x => negb (framebuffer_eqb x fbo)) (fbo :: l)
  = filter (fun x => negb (framebuffer_eqb x fbo)) l.
Proof. cbn. now rewrite framebuffer_eqb_refl. Qed.

(** The context after the calls of the rollback: the previous framebuffer is
    bound and the new framebuffer is deleted. *)
Lemma rolled_back_context (prev : option WebGLFramebuffer)
  (cb : option WebGLTexture) (fbo : WebGLFramebuffer) (g : GLContext) :
  let g' :=
    Ctx.deleteFramebuffer fbo
      (Ctx.bindFramebuffer FRAMEBUFFER prev
         (snd (Ctx.checkFramebufferStatus FRAMEBUFFER
                 (Ctx.framebufferTexture2D FRAMEBUFFER COLOR_ATTACHMENT0
                    TEXTURE_2D cb 0
                    (Ctx.bindFramebuffer FRAMEBUFFER (Some fbo) g))))) in
  liveTextures g' = liveTextures g
  /\ liveFramebuffers g'
     = filter (fun x => negb (framebuffer_eqb x fbo)) (liveFramebuffers g)
  /\ drawFramebuffer g' = prev.
Proof. repeat split. Qed.

(** X18. The rollback works on an object that already holds the context it
    is allocated on, as it does after an earlier successful allocation: when
    the framebuffer is created and found incomplete, the call returns
    [false], [previousFramebuffer] is bound, the object owns nothing, and no
    texture or framebuffer is alive that was not alive before the call. *)
Lemma allocate_incomplete_rolls_back (this : TargetRef) (gl : GLRef)
  (w h : number) (prev : option WebGLFramebuffer) (W : World) :
  _gl (targets W this) = Some gl ->
  Ctx.scripted true (framebufferScript (contexts W gl)) = true ->
  Ctx.scripted FRAMEBUFFER_COMPLETE (statusScript (contexts W gl))
  <> FRAMEBUFFER_COMPLETE ->
  exists W',
    createOffscreenRenderTarget this gl w h prev W = Returned false W'
    /\ drawFramebuffer (contexts W' gl) = prev
    /\ _colorBuffer (targets W' this) = None
    /\ _renderTexture (targets W' this) = None
    /\ incl (liveTextures (contexts W' gl)) (liveTextures (contexts W gl))
    /\ incl (liveFramebuffers (contexts W' gl))
         (liveFramebuffers (contexts W gl)).
Proof.
  intros Egl Hfb Hst.
  destruct (destroy_with_context this W Egl) as (W0 & Hd & Et0 & Ec0 & _).
  destruct (destroyed_context_frame (targets W this) (contexts W gl))
    as (_ & _ & Sfb & Sst & _).
  destruct (destroyed_context_incl (targets W this) (contexts W gl))
    as (Ltex & Lfb).
  rewrite <- Ec0 in *. clear Ec0.
  unfold createOffscreenRenderTarget.
  erewrite bind_returned by exact Hd.
  js_run.
  fold (texture_made gl w h (contexts W0 gl)).
  destruct (texture_made_frame gl w h (contexts W0 gl))
    as (Mtex & Mfb & Msfb & Msst & _).
  destruct (createFramebuffer_frame gl (texture_made gl w h (contexts W0 gl)))
    as (Ctex & Cfb & Csst & Cnone).
  destruct (fst (Ctx.createFramebuffer gl (texture_made gl w h (contexts W0 gl))))
    as [fbo |] eqn:Efbo.
  2:{ specialize (Cnone eq_refl). congruence. }
  js_run.
  rewrite status_of_new_framebuffer, Csst, Msst, Sst.
  destruct (Z.eqb_spec
              (Ctx.scripted FRAMEBUFFER_COMPLETE (statusScript (contexts W gl)))
              FRAMEBUFFER_COMPLETE) as [E | _]; [contradiction |].
  js_run.
  match goal with
  | |- context [bind (destroyRenderTarget this) _ ?w] =>
      destruct (destroy_with_context this w (gl := gl))
        as (W7 & Hd7 & Et7 & Ec7 & _);
      [js_simpl; rewrite Et0; exact Egl |]
  end.
  erewrite bind_returned by exact Hd7. js_last.
  exists W7. split; [reflexivity |].
  revert Et7 Ec7. js_simpl. intros Et7 Ec7. rewrite Et7, Ec7.
  match goal with
  | |- context [destroyed_context ?t ?g] =>
      destruct (destroyed_context_frame t g) as (Ftex & Ffb & _ & _ & Fdraw)
  end.
  rewrite Fdraw, Ftex, Ffb, Et0. js_simpl.
  match goal with
  | |- context [Ctx.deleteFramebuffer fbo
                  (Ctx.bindFramebuffer FRAMEBUFFER prev
                     (snd (Ctx.checkFramebufferStatus FRAMEBUFFER
                             (Ctx.framebufferTexture2D _ _ _ ?cb _
                                (Ctx.bindFramebuffer _ _ ?g)))))] =>
      destruct (rolled_back_context prev cb fbo g) as (Rtex & Rfb & Rdraw)
  end.
  rewrite Rtex, Rfb, Rdraw, Ctex, Mtex, Cfb, filter_out_head_framebuffer, Mfb.
  split; [reflexivity | split; [reflexivity | split; [reflexivity |]]].
  split.
  - destruct (fst (Ctx.createTexture gl (contexts W0 gl))) as [tex |].
    + rewrite filter_out_head_texture.
      eapply incl_tran; [apply incl_filter | exact Ltex].
    + exact Ltex.
  - eapply incl_tran; [apply incl_filter | exact Lfb].
Qed.

Lemma allocate_incomplete_rolls_back_witness :
  let W := run [op_new; op_new;
                op_allocate 0 0 64%float 32%float None;
                op_allocate 1 0 16%float 8%float None]
             (scripted_world [] []
                [FRAMEBUFFER_COMPLETE; FRAMEBUFFER_COMPLETE;
                 FRAMEBUFFER_UNSUPPORTED]) in
  exists W',
    createOffscreenRenderTarget 0 0 64%float 32%float
      (Some (mkFramebuffer 0 3)) W = Returned false W'
    /\ drawFramebuffer (contexts W' 0) = Some (mkFramebuffer 0 3)
    /\ _colorBuffer (targets W' 0) = None.
Proof.
  intros W.
  destruct (@allocate_incomplete_rolls_back 0 0 64%float 32%float
              (Some (mkFramebuffer 0 3)) W
              ltac:(vm_compute; reflexivity) ltac:(vm_compute; reflexivity)
              ltac:(vm_compute; discriminate))
    as (W' & Hrun & Hdraw & Hcb & _).
  exists W'. repeat split; assumption.
Defined.

(** ** What every method keeps *)

Section Respects.

Variable P : World -> World -> Prop.
Hypothesis P_refl : forall W, P W W.
Hypothesis P_trans : forall W1 W2 W3, P W1 W2 -> P W2 W3 -> P W1 W3.

Lemma respects_bind {A B : Type} (m : M A) (k : A -> M B) :
  respects P m -> (forall a, respects P (k a)) -> respects P (bind m k).
Proof.
  intros Hm Hk W. unfold bind. specialize (Hm W).
  destruct (m W) as [a W1 | e W1]; cbn in *.
  - eapply P_trans; [exact Hm | apply Hk].
  - exact Hm.
Qed.

Lemma respects_unchanged {A : Type} (m : M A) :
  (forall W, final_world (m W) = W) -> respects P m.
Proof. intros H W. rewrite H. apply P_refl. Qed.

Lemma respects_ret {A : Type} (a : A) : respects P (ret a).
Proof. apply respects_unchanged. reflexivity. Qed.

Lemma respects_throw {A : Type} (e : JsError) : respects P (throw (A := A) e).
Proof. apply respects_unchanged. reflexivity. Qed.

Lemma respects_read {A : Type} (field : CubismRenderTarget_WebGL -> A)
  (this : TargetRef) : respects P (read field this).
Proof. apply respects_unchanged. reflexivity. Qed.

Lemma respects_this_gl (this : TargetRef) : respects P (this_gl this).
Proof.
  apply respects_unchanged. intros W. unfold this_gl.
  destruct (_gl (targets W this)); reflexivity.
Qed.

Lemma respects_instanceof (gl : GLRef) :
  respects P (instanceof_WebGL2RenderingContext gl).
Proof.
  apply respects_unchanged. intros W.
  unfold instanceof_WebGL2RenderingContext.
  destruct (isWebGL2 (contexts W gl)), (hostDefinesWebGL2 W); reflexivity.
Qed.

End Respects.

Create HintDb respects.

#[local] Hint Resolve respects_ret respects_throw respects_read
  respects_this_gl respects_instanceof : respects.

(** *** Calls only accumulate *)

Lemma grows_refl (W : World) : grows W W.
Proof. intros c. exists []. now rewrite app_nil_r. Qed.

Lemma grows_trans (W1 W2 W3 : World) : grows W1 W2 -> grows W2 W3 -> grows W1 W3.
Proof.
  intros H12 H23 c. destruct (H12 c) as [l Hl], (H23 c) as [l' Hl'].
  exists (l ++ l'). now rewrite Hl', Hl, app_assoc.
Qed.

#[local] Hint Resolve grows_refl grows_trans : respects.

Lemma grows_gl_do (gl : GLRef) (op : GLContext -> GLContext) :
  appends op -> respects grows (gl_do gl op).
Proof.
  intros H W c. cbn.
  destruct (Nat.eq_dec c gl) as [-> | D].
  - rewrite update_eq. apply H.
  - rewrite update_neq by exact D. exists []. now rewrite app_nil_r.
Qed.

Lemma grows_gl_call {A : Type} (gl : GLRef) (op : GLContext -> A * GLContext) :
  appends (fun g => snd (op g)) -> respects grows (gl_call gl op).
Proof.
  intros H W c. cbn.
  destruct (Nat.eq_dec c gl) as [-> | D].
  - rewrite update_eq. apply H.
  - rewrite update_neq by exact D. exists []. now rewrite app_nil_r.
Qed.

Lemma grows_assign (upd : CubismRenderTarget_WebGL -> CubismRenderTarget_WebGL)
  (this : TargetRef) : respects grows (assign upd this).
Proof. intros W c. cbn. exists []. now rewrite app_nil_r. Qed.

Lemma grows_console_error (message : string) :
  respects grows (console_error message).
Proof. intros W c. cbn. exists []. now rewrite app_nil_r. Qed.

Ltac appends_one := intros ?; eexists; reflexivity.

Lemma appends_bindTexture target t : appends (Ctx.bindTexture target t).
Proof.
  intros g. unfold Ctx.bindTexture.
  destruct (Z.eqb target TEXTURE_2D); eexists; reflexivity.
Qed.

Lemma appends_texImage2D target level internalformat w h border format type :
  appends (Ctx.texImage2D target level internalformat w h border format type).
Proof.
  intros g. unfold Ctx.texImage2D.
  destruct (boundTexture g); eexists; reflexivity.
Qed.

Lemma appends_texParameteri target pname param :
  appends (Ctx.texParameteri target pname param).
Proof. appends_one. Qed.

Lemma appends_deleteTexture t : appends (Ctx.deleteTexture t).
Proof. appends_one. Qed.

Lemma appends_bindFramebuffer target f : appends (Ctx.bindFramebuffer target f).
Proof. intros g. eexists. apply calls_bindFramebuffer. Qed.

Lemma appends_framebufferTexture2D target attachment textarget t level :
  appends (Ctx.framebufferTexture2D target attachment textarget t level).
Proof. appends_one. Qed.

Lemma appends_deleteFramebuffer f : appends (Ctx.deleteFramebuffer f).
Proof. appends_one. Qed.

Lemma appends_blitFramebuffer x0 y0 x1 y1 u0 v0 u1 v1 mask filter :
  appends (Ctx.blitFramebuffer x0 y0 x1 y1 u0 v0 u1 v1 mask filter).
Proof. appends_one. Qed.

Lemma appends_clearColor r g b a : appends (Ctx.clearColor r g b a).
Proof. appends_one. Qed.

Lemma appends_clear mask : appends (Ctx.clear mask).
Proof. appends_one. Qed.

Lemma appends_createTexture gl :
  appends (fun g => snd (Ctx.createTexture gl g)).
Proof.
  intros g. unfold Ctx.createTexture.
  destruct (Ctx.scripted true (textureScript g)); eexists; reflexivity.
Qed.

Lemma appends_createFramebuffer gl :
  appends (fun g => snd (Ctx.createFramebuffer gl g)).
Proof.
  intros g. unfold Ctx.createFramebuffer.
  destruct (Ctx.scripted true (framebufferScript g)); eexists; reflexivity.
Qed.

Lemma appends_checkFramebufferStatus target :
  appends (fun g => snd (Ctx.checkFramebufferStatus target g)).
Proof. appends_one. Qed.

Lemma appends_getParameter :
  appends (fun g => snd (Ctx.getParameter_FRAMEBUFFER_BINDING g)).
Proof. appends_one. Qed.

#[local] Hint Resolve grows_gl_do grows_gl_call grows_assign
  grows_console_error
  appends_bindTexture appends_texImage2D appends_texParameteri
  appends_deleteTexture appends_bindFramebuffer appends_framebufferTexture2D
  appends_deleteFramebuffer appends_blitFramebuffer appends_clearColor
  appends_clear appends_createTexture appends_createFramebuffer
  appends_checkFramebufferStatus appends_getParameter : respects.

(** A method body respects a relation when each of its statements does. *)
Ltac respects_body P_trans :=
  repeat first
    [ solve [auto with respects]
    | apply (respects_bind P_trans); [| intros ?]
    | match goal with
      | |- respects _ (match ?x with _ => _ end) => destruct x
      end ].

Lemma destroyRenderTarget_grows (this : TargetRef) :
  respects grows (destroyRenderTarget this).
Proof. unfold destroyRenderTarget. respects_body grows_trans. Qed.

#[local] Hint Resolve destroyRenderTarget_grows : respects.

Lemma createOffscreenRenderTarget_grows (this : TargetRef) (gl : GLRef)
  (w h : number) (prev : option WebGLFramebuffer) :
  respects grows (createOffscreenRenderTarget this gl w h prev).
Proof.
  unfold createOffscreenRenderTarget.
  respects_body grows_trans.
Qed.

(** X19. An allocation on an object that holds a context, as every object
    does once an allocation succeeded on it, releases first: whatever the
    outcome of [createOffscreenRenderTarget], the calls the object's context
    received during the call begin with the release of what the object owned,
    before any creation. *)
Lemma reallocate_releases_previous (this : TargetRef) (gl0 gl : GLRef)
  (w h : number) (prev : option WebGLFramebuffer) (W : World) :
  _gl (targets W this) = Some gl0 ->
  exists rest,
    calls (contexts
             (final_world (createOffscreenRenderTarget this gl w h prev W)) gl0)
    = calls (contexts W gl0) ++ destroy_calls (targets W this) ++ rest.
Proof.
  intros Egl.
  destruct (destroy_with_context this W Egl) as (W0 & Hd & _ & Ec0 & _).
  unfold createOffscreenRenderTarget.
  erewrite bind_returned by exact Hd. cbv beta.
  match goal with
  | |- context [final_world (?m W0)] =>
      assert (Hm : respects grows m) by respects_body grows_trans
  end.
  destruct (Hm W0 gl0) as [rest Hrest]. exists rest.
  rewrite Hrest, Ec0, calls_destroyed_context, app_assoc. reflexivity.
Qed.

Lemma reallocate_releases_previous_witness :
  let W := run [op_new; op_allocate 0 0 64%float 32%float None]
             (empty_world true) in
  exists rest,
    calls (contexts
             (final_world
                (createOffscreenRenderTarget 0 0 16%float 8%float None W)) 0)
    = calls (contexts W 0)
      ++ [call_bindTexture TEXTURE_2D None;
          call_deleteTexture (mkTexture 0 0);
          call_bindFramebuffer FRAMEBUFFER None;
          call_deleteFramebuffer (mkFramebuffer 0 1)]
      ++ rest.
Proof.
  intros W.
  destruct (@reallocate_releases_previous 0 0 0 16%float 8%float None W
              ltac:(vm_compute; reflexivity)) as [rest Hrest].
  exists rest. rewrite Hrest. reflexivity.
Defined.

(** X20. With a context held, [createOffscreenRenderTarget] returns: neither
    of its two calls of [destroyRenderTarget] can throw. *)
Lemma allocate_returns (this : TargetRef) (gl0 gl : GLRef)
  (w h : number) (prev : option WebGLFramebuffer) (W : World) :
  _gl (targets W this) = Some gl0 ->
  exists b W',
    createOffscreenRenderTarget this gl w h prev W = Returned b W'.
Proof.
  intros Egl.
  destruct (destroy_with_context this W Egl) as (W0 & Hd & Et0 & _).
  unfold createOffscreenRenderTarget.
  erewrite bind_returned by exact Hd.
  js_run. js_case; js_run.
  - js_case; js_run.
    + match goal with
      | |- context [bind (destroyRenderTarget this) _ ?w] =>
          destruct (destroy_with_context this w (gl := gl0))
            as (W7 & Hd7 & _);
          [js_simpl; rewrite Et0; exact Egl |]
      end.
      erewrite bind_returned by exact Hd7. js_last.
      eexists. eexists. reflexivity.
    + js_last. eexists. eexists. reflexivity.
  - js_last. eexists. eexists. reflexivity.
Qed.

Lemma allocate_returns_witness :
  let W := run [op_new; op_allocate 0 0 64%float 32%float None]
             (scripted_world [] [true; false] []) in
  exists b W',
    createOffscreenRenderTarget 0 0 16%float 8%float None W = Returned b W'.
Proof.
  intros W.
  apply (@allocate_returns 0 0 0 16%float 8%float None W).
  vm_compute. reflexivity.
Defined.

(** *** A valid object holds a context *)

Lemma keeps_context_refl (W : World) : keeps_context W W.
Proof. intros H. exact H. Qed.

Lemma keeps_context_trans (W1 W2 W3 : World) :
  keeps_context W1 W2 -> keeps_context W2 W3 -> keeps_context W1 W3.
Proof. unfold keeps_context. auto. Qed.

Lemma keeps_context_same_targets {A : Type} (m : M A) :
  (forall W, targets (final_world (m W)) = targets W) ->
  respects keeps_context m.
Proof. intros H W Inv this. rewrite H. apply Inv. Qed.

Lemma keeps_context_gl_do (gl : GLRef) (op : GLContext -> GLContext) :
  respects keeps_context (gl_do gl op).
Proof. apply keeps_context_same_targets. reflexivity. Qed.

Lemma keeps_context_gl_call {A : Type} (gl : GLRef)
  (op : GLContext -> A * GLContext) :
  respects keeps_context (gl_call gl op).
Proof. apply keeps_context_same_targets. reflexivity. Qed.

Lemma keeps_context_console_error (message : string) :
  respects keeps_context (console_error message).
Proof. apply keeps_context_same_targets. reflexivity. Qed.

Lemma keeps_context_assign
  (upd : CubismRenderTarget_WebGL -> CubismRenderTarget_WebGL)
  (this : TargetRef) :
  harmless upd -> respects keeps_context (assign upd this).
Proof.
  intros H W Inv t. cbn.
  destruct (Nat.eq_dec t this) as [-> | D].
  - rewrite update_eq.
    destruct (H (targets W this)) as [Hgl [Hrt | Hrt]]; rewrite Hgl, Hrt.
    + apply Inv.
    + intros C. now contradiction C.
  - rewrite update_neq by exact D. apply Inv.
Qed.

Lemma harmless_set_colorBuffer (v : option WebGLTexture) :
  harmless (Field.set_colorBuffer v).
Proof. intros t. split; [| left]; reflexivity. Qed.

Lemma harmless_set_oldFbo (v : option WebGLFramebuffer) :
  harmless (Field.set_oldFbo v).
Proof. intros t. split; [| left]; reflexivity. Qed.

Lemma harmless_clear_renderTexture : harmless (Field.set_renderTexture None).
Proof. intros t. split; [| right]; reflexivity. Qed.

(** The assignments of a successful allocation, taken together: the object
    gets its framebuffer and its context. *)
Lemma keeps_context_success (this : TargetRef) (gl : GLRef)
  (fbo : WebGLFramebuffer) (w h : number) :
  respects keeps_context
    (assign (Field.set_renderTexture (Some fbo)) this ;;
     assign (Field.set_bufferWidth w) this ;;
     assign (Field.set_bufferHeight h) this ;;
     assign (Field.set_gl (Some gl)) this ;;
     ret true).
Proof.
  intros W Inv t. js_run. js_last.
  destruct (Nat.eq_dec t this) as [-> | D].
  - js_simpl. discriminate.
  - js_simpl. apply Inv.
Qed.

Lemma keeps_context_new : respects keeps_context new_CubismRenderTarget_WebGL.
Proof.
  intros W Inv t. cbn.
  destruct (Nat.eq_dec t (nextTarget W)) as [-> | D].
  - rewrite update_eq. intros C. now contradiction C.
  - rewrite update_neq by exact D. apply Inv.
Qed.

#[local] Hint Resolve keeps_context_refl keeps_context_trans
  keeps_context_gl_do keeps_context_gl_call keeps_context_console_error
  keeps_context_assign harmless_set_colorBuffer harmless_set_oldFbo
  harmless_clear_renderTexture keeps_context_success keeps_context_new
  : respects.

Lemma destroyRenderTarget_keeps_context (this : TargetRef) :
  respects keeps_context (destroyRenderTarget this).
Proof. unfold destroyRenderTarget. respects_body keeps_context_trans. Qed.

#[local] Hint Resolve destroyRenderTarget_keeps_context : respects.

Lemma createOffscreenRenderTarget_keeps_context (this : TargetRef)
  (gl : GLRef) (w h : number) (prev : option WebGLFramebuffer) :
  respects keeps_context (createOffscreenRenderTarget this gl w h prev).
Proof.
  unfold createOffscreenRenderTarget. respects_body keeps_context_trans.
Qed.

Lemma beginDraw_keeps_context (this : TargetRef)
  (restoreFbo : option WebGLFramebuffer) :
  respects keeps_context (beginDraw this restoreFbo).
Proof. unfold beginDraw. respects_body keeps_context_trans. Qed.

Lemma endDraw_keeps_context (this : TargetRef) :
  respects keeps_context (endDraw this).
Proof. unfold endDraw. respects_body keeps_context_trans. Qed.

Lemma clear_keeps_context (this : TargetRef) (r g b a : number) :
  respects keeps_context (clear this r g b a).
Proof. unfold clear. respects_body keeps_context_trans. Qed.

Lemma copyBuffer_keeps_context (gl : GLRef) (src dst : option TargetRef) :
  respects keeps_context (copyBuffer gl src dst).
Proof.
  unfold copyBuffer, getRenderTexture, getBufferWidth, getBufferHeight.
  respects_body keeps_context_trans.
Qed.

Lemma run_op_keeps_context (o : Op) (W : World) :
  context_held W -> context_held (run_op o W).
Proof.
  destruct o; cbn [run_op].
  - apply keeps_context_new.
  - apply createOffscreenRenderTarget_keeps_context.
  - apply beginDraw_keeps_context.
  - apply endDraw_keeps_context.
  - apply clear_keeps_context.
  - apply destroyRenderTarget_keeps_context.
  - apply copyBuffer_keeps_context.
Qed.

(** X21. A valid object holds a context: in every world that a sequence of
    constructions and method calls reaches from a world in which this is so,
    such as a world without objects, an object that owns a framebuffer holds
    a context. *)
Lemma valid_target_holds_context (ops : list Op) (W : World) (this : TargetRef) :
  context_held W ->
  _renderTexture (targets (run ops W) this) <> None ->
  exists gl, _gl (targets (run ops W) this) = Some gl.
Proof.
  intros Inv Hrt.
  assert (H : context_held (run ops W)).
  { revert W Inv Hrt. unfold run.
    induction ops as [| o ops IH]; intros W Inv Hrt; cbn [fold_left].
    - exact Inv.
    - apply IH; [apply run_op_keeps_context; exact Inv | exact Hrt]. }
  specialize (H this Hrt).
  destruct (_gl (targets (run ops W) this)) as [gl |];
    [exists gl; reflexivity | contradiction].
Qed.

Lemma context_held_without_objects (webgl2 : bool) :
  context_held (empty_world webgl2).
Proof. intros this H. now contradiction H. Qed.

(** *** The invariant after a successful allocation *)

Lemma texture_made_images (gl : GLRef) (w h : number) (g : GLContext) :
  textureImages (texture_made gl w h g)
  = match fst (Ctx.createTexture gl g) with
    | Some tex => (tex, (w, h)) :: textureImages g
    | None => textureImages g
    end.
Proof.
  unfold texture_made, Ctx.createTexture.
  destruct (Ctx.scripted true (textureScript g)); reflexivity.
Qed.

Lemma valid_target_holds_context_witness :
  exists gl,
    _gl (targets
           (run [op_new; op_allocate 0 0 64%float 32%float None;
                 op_beginDraw 0 None; op_endDraw 0]
              (empty_world true)) 0) = Some gl.
Proof.
  apply valid_target_holds_context.
  - apply context_held_without_objects.
  - vm_compute. discriminate.
Defined.

Lemma createFramebuffer_images (gl : GLRef) (g : GLContext) :
  textureImages (snd (Ctx.createFramebuffer gl g)) = textureImages g.
Proof.
  unfold Ctx.createFramebuffer.
  destruct (Ctx.scripted true (framebufferScript g)); reflexivity.
Qed.

Lemma checked_context_images (cb : option WebGLTexture)
  (fbo : WebGLFramebuffer) (g : GLContext) :
  textureImages
    (snd (Ctx.checkFramebufferStatus FRAMEBUFFER
            (Ctx.framebufferTexture2D FRAMEBUFFER COLOR_ATTACHMENT0
               TEXTURE_2D cb 0
               (Ctx.bindFramebuffer FRAMEBUFFER (Some fbo) g))))
  = textureImages g.
Proof. reflexivity. Qed.

(** X22. After an allocation that returned [true] and in which the texture
    was created, the object owns a texture and a framebuffer, and its stored
    size is the size the texture was given on its context. *)
Lemma allocate_success_owns_pair (this : TargetRef) (gl : GLRef) (w h : number)
  (prev : option WebGLFramebuffer) (W W1 : World) :
  createOffscreenRenderTarget this gl w h prev W = Returned true W1 ->
  _colorBuffer (targets W1 this) <> None ->
  owns_pair W1 (targets W1 this).
Proof.
  unfold createOffscreenRenderTarget.
  destruct (destroyRenderTarget this W) as [[] W0 | e W0] eqn:Hd.
  2:{ erewrite bind_thrown by exact Hd. discriminate. }
  erewrite bind_returned by exact Hd. js_run.
  fold (texture_made gl w h (contexts W0 gl)).
  js_case; [| js_run; js_last; discriminate].
  js_run. js_case.
  - js_run.
    match goal with
    | |- context [bind (destroyRenderTarget ?t) _ ?w] =>
        destruct (destroyRenderTarget t w) as [[] W2 | e W2] eqn:Hd2
    end.
    + erewrite bind_returned by exact Hd2. js_last. discriminate.
    + erewrite bind_thrown by exact Hd2. discriminate.
  - js_run. js_last. intros H. apply returned_inj in H.
    destruct H as [_ <-]. js_simpl.
    destruct (fst (Ctx.createTexture gl (contexts W0 gl))) as [tex |] eqn:Etex;
      [intros _ | intros C; now contradiction C].
    match goal with
    | |- context [Ctx.bindFramebuffer FRAMEBUFFER (Some ?f) _] =>
        exists tex, f, gl
    end.
    unfold owns_pair. js_simpl.
    repeat split.
    rewrite checked_context_images, createFramebuffer_images,
      texture_made_images, Etex.
    cbn [texture_size]. now rewrite texture_eqb_refl.
Qed.

Lemma allocate_success_owns_pair_witness :
  exists W1,
    createOffscreenRenderTarget 0 0 64%float 32%float None
      (run [op_new] (empty_world true)) = Returned true W1
    /\ owns_pair W1 (targets W1 0).
Proof.
  assert (H : createOffscreenRenderTarget 0 0 64%float 32%float None
                (run [op_new] (empty_world true))
              = Returned true
                  (run [op_new; op_allocate 0 0 64%float 32%float None]
                     (empty_world true)))
    by (vm_compute; reflexivity).
  eexists. split; [exact H |].
  apply (allocate_success_owns_pair _ _ _ _ _ _ H).
  vm_compute. discriminate.
Defined.

(** * Further properties of the class *)

(** ** clear *)

(** X1. On a target that holds a context, valid or not, [clear] returns and
    the context received [clearColor(r, g, b, a)] and then
    [clear(COLOR_BUFFER_BIT)], nothing else: it binds nothing, so both
    framebuffer bindings are the ones found, no object changed and no other
    context was touched. *)
Theorem clear_sends_color_then_clear (this : TargetRef) (gl : GLRef)
  (r g b a : number) (W : World) :
  _gl (targets W this) = Some gl ->
  exists W',
    clear this r g b a W = Returned tt W'
    /\ calls (contexts W' gl)
       = calls (contexts W gl)
         ++ [call_clearColor r g b a; call_clear COLOR_BUFFER_BIT]
    /\ drawFramebuffer (contexts W' gl) = drawFramebuffer (contexts W gl)
    /\ readFramebuffer (contexts W' gl) = readFramebuffer (contexts W gl)
    /\ targets W' = targets W
    /\ (forall other, other <> gl -> contexts W' other = contexts W other).
Proof.
  intros E. eexists. split.
  - unfold clear. js_run. js_last. reflexivity.
  - js_simpl. repeat split.
    + cbn. rewrite <- app_assoc. reflexivity.
    + intros other D. js_simpl. reflexivity.
Qed.

Lemma clear_sends_color_then_clear_witness :
  let W := run [op_new; op_allocate 0 0 64%float 32%float None;
                op_destroy 0] (empty_world true) in
  exists W',
    clear 0 0%float 0%float 0%float 1%float W = Returned tt W'
    /\ drawFramebuffer (contexts W' 0) = drawFramebuffer (contexts W 0).
Proof.
  intros W.
  destruct (clear_sends_color_then_clear 0 0%float 0%float 0%float 1%float W
              (gl := 0) ltac:(vm_compute; reflexivity))
    as (W' & Hrun & _ & Hdraw & _).
  exists W'. split; assumption.
Defined.

(** X2. On a target that holds no context, as every object does from its
    construction to its first successful allocation, [clear] throws a
    TypeError in the world it started from: nothing was sent. *)
Theorem clear_without_context_throws (this : TargetRef) (r g b a : number)
  (W : World) :
  _gl (targets W this) = None ->
  clear this r g b a W
  = Thrown (TypeError "Cannot read properties of null") W.
Proof. intros E. unfold clear. js_run. reflexivity. Qed.

Lemma clear_without_context_throws_witness :
  clear 0 0%float 0%float 0%float 1%float (run [op_new] (empty_world true))
  = Thrown (TypeError "Cannot read properties of null")
      (run [op_new] (empty_world true)).
Proof.
  apply clear_without_context_throws. vm_compute. reflexivity.
Defined.

(** ** The chain bookkeeping *)

(** X3. [setOffscreenIndex] then [getOffscreenIndex] on the same object
    gives back the index that was set, whatever it is; the index of every
    other object, the validity and the links of this one and every context
    are as before. *)
Theorem offscreen_index_round_trip (this : TargetRef) (i : number) (W : World) :
  exists W',
    setOffscreenIndex this i W = Returned tt W'
    /\ getOffscreenIndex this W' = Returned i W'
    /\ (forall other, other <> this ->
          getOffscreenIndex other W'
          = Returned (_offscreenIndex (targets W other)) W')
    /\ isValid this W' = Returned (truthy (_renderTexture (targets W this))) W'
    /\ getOldOffscreen this W' = Returned (_oldOffscreen (targets W this)) W'
    /\ getParentPartOffscreen this W'
       = Returned (_parentOffscreenRenderTarget (targets W this)) W'
    /\ contexts W' = contexts W.
Proof.
  eexists. split; [reflexivity |].
  unfold getOffscreenIndex, getOldOffscreen, getParentPartOffscreen, isValid,
    read, bind, ret.
  cbn [targets contexts set_target]. rewrite update_eq.
  repeat split.
  intros other D. now rewrite update_neq by exact D.
Qed.

(** X4. The two links are stored as given and independently: after
    [setOldOffscreen(old)] and [setParentPartOffscreen(parent)], in either
    order, [getOldOffscreen] returns [old] and [getParentPartOffscreen]
    returns [parent].  Nothing is checked: [null] is stored as any other
    value, and so is the object itself. *)
Theorem links_round_trip (this : TargetRef) (old parent : option TargetRef)
  (W : World) :
  exists W1 W2,
    (setOldOffscreen this old ;; setParentPartOffscreen this parent) W
    = Returned tt W1
    /\ (setParentPartOffscreen this parent ;; setOldOffscreen this old) W
       = Returned tt W2
    /\ getOldOffscreen this W1 = Returned old W1
    /\ getParentPartOffscreen this W1 = Returned parent W1
    /\ getOldOffscreen this W2 = Returned old W2
    /\ getParentPartOffscreen this W2 = Returned parent W2
    /\ getOffscreenIndex this W1
       = Returned (_offscreenIndex (targets W this)) W1.
Proof.
  eexists. eexists. split; [reflexivity | split; [reflexivity |]].
  unfold getOffscreenIndex, getOldOffscreen, getParentPartOffscreen, read.
  cbn [targets set_target]. rewrite !update_eq.
  repeat split.
Qed.

(** ** The constructor *)

(** X5. A construction gives an object that no earlier construction gave,
    leaves every other object and every context as they were, and the new
    object is inert: it is not valid, its sizes are 0 and its index -1, it
    has no link, and [destroyRenderTarget] and [beginDraw] on it return
    without doing anything. *)
Theorem constructed_target_is_inert (restoreFbo : option WebGLFramebuffer)
  (W : World) :
  exists W',
    new_CubismRenderTarget_WebGL W = Returned (nextTarget W) W'
    /\ nextTarget W < nextTarget W'
    /\ (forall other, other <> nextTarget W ->
          targets W' other = targets W other)
    /\ contexts W' = contexts W
    /\ isValid (nextTarget W) W' = Returned false W'
    /\ getBufferWidth (nextTarget W) W' = Returned 0%float W'
    /\ getBufferHeight (nextTarget W) W' = Returned 0%float W'
    /\ getOffscreenIndex (nextTarget W) W' = Returned (-1)%float W'
    /\ getOldOffscreen (nextTarget W) W' = Returned None W'
    /\ getParentPartOffscreen (nextTarget W) W' = Returned None W'
    /\ destroyRenderTarget (nextTarget W) W' = Returned tt W'
    /\ beginDraw (nextTarget W) restoreFbo W' = Returned tt W'.
Proof.
  eexists. split; [reflexivity |].
  assert (Et : targets
                 (mkWorld (update (targets W) (nextTarget W) constructed)
                    (S (nextTarget W)) (contexts W) (console W)
                    (hostDefinesWebGL2 W))
                 (nextTarget W) = constructed)
    by (cbn [targets]; apply update_eq).
  split; [cbn [nextTarget]; apply Nat.lt_succ_diag_r |].
  split; [intros other D; cbn [targets]; now rewrite update_neq by exact D |].
  split; [reflexivity |].
  unfold isValid, getBufferWidth, getBufferHeight, getOffscreenIndex,
    getOldOffscreen, getParentPartOffscreen, read, bind, ret.
  rewrite Et. repeat split.
  - apply destroy_nothing; rewrite Et; reflexivity.
  - apply beginDraw_invalid. rewrite Et. reflexivity.
Qed.

(** ** One drawing pass *)

(** X6. A drawing pass into a valid target returns and leaves bound the
    restore target when one is given, whatever was bound before, and the
    framebuffer that was bound before when none is given.  With a restore
    target the binding is not queried: the context receives the two
    [bindFramebuffer] calls only.  The binding that was restored stays in
    the object, where [getOldFBO] reads it. *)
Theorem draw_pass_restores (this : TargetRef) (gl : GLRef)
  (fbo : WebGLFramebuffer) (restoreFbo : option WebGLFramebuffer) (W : World) :
  _gl (targets W this) = Some gl ->
  _renderTexture (targets W this) = Some fbo ->
  let restored :=
    match restoreFbo with
    | Some f => Some f
    | None => drawFramebuffer (contexts W gl)
    end in
  exists W',
    draw_pass this restoreFbo W = Returned tt W'
    /\ drawFramebuffer (contexts W' gl) = restored
    /\ calls (contexts W' gl)
       = calls (contexts W gl)
         ++ match restoreFbo with
            | Some _ => []
            | None => [call_getParameter FRAMEBUFFER_BINDING]
            end
         ++ [call_bindFramebuffer FRAMEBUFFER (Some fbo);
             call_bindFramebuffer FRAMEBUFFER restored]
    /\ getOldFBO this W' = Returned restored W'.
Proof.
  intros Egl Ert restored. subst restored.
  unfold draw_pass, beginDraw, endDraw, getOldFBO.
  destruct restoreFbo as [f |]; eexists; (split; [
    js_facts Egl Ert Ert; js_last; reflexivity |]);
    js_last; repeat split; cbn; rewrite <- ?app_assoc; reflexivity.
Qed.

Lemma draw_pass_restores_witness :
  let W := run [op_new; op_new;
                op_allocate 0 0 64%float 32%float None;
                op_allocate 1 0 16%float 8%float None] (empty_world true) in
  drawFramebuffer (contexts W 0) = Some (mkFramebuffer 0 3)
  /\ (exists W',
        draw_pass 0 None W = Returned tt W'
        /\ drawFramebuffer (contexts W' 0) = Some (mkFramebuffer 0 3))
  /\ (exists W',
        draw_pass 0 (Some (mkFramebuffer 0 1)) W = Returned tt W'
        /\ drawFramebuffer (contexts W' 0) = Some (mkFramebuffer 0 1)).
Proof.
  intros W.
  assert (Egl : _gl (targets W 0) = Some 0) by (vm_compute; reflexivity).
  assert (Ert : _renderTexture (targets W 0) = Some (mkFramebuffer 0 1))
    by (vm_compute; reflexivity).
  assert (Edraw : drawFramebuffer (contexts W 0) = Some (mkFramebuffer 0 3))
    by (vm_compute; reflexivity).
  split; [exact Edraw | split].
  - destruct (draw_pass_restores 0 None W Egl Ert) as (W' & Hrun & Hdraw & _).
    exists W'. split; [exact Hrun | now rewrite Hdraw].
  - destruct (draw_pass_restores 0 (Some (mkFramebuffer 0 1)) W Egl Ert)
      as (W' & Hrun & Hdraw & _).
    exists W'. split; [exact Hrun | exact Hdraw].
Defined.

(** ** destroyRenderTarget, further *)

Lemma not_in_filter_texture (tex : WebGLTexture) (l : list WebGLTexture) :
  ~ In tex (filter (fun x => negb (texture_eqb x tex)) l).
Proof.
  intros H. apply filter_In in H. destruct H as [_ H].
  now rewrite texture_eqb_refl in H.
Qed.

Lemma not_in_filter_framebuffer (fbo : WebGLFramebuffer)
  (l : list WebGLFramebuffer) :
  ~ In fbo (filter (fun x => negb (framebuffer_eqb x fbo)) l).
Proof.
  intros H. apply filter_In in H. destruct H as [_ H].
  now rewrite framebuffer_eqb_refl in H.
Qed.

(** X7. On an object that holds a context, [destroyRenderTarget] returns and
    releases what the object owns on the context it holds, and only there,
    the texture and the framebuffer each on its own: that context received
    exactly [destroy_calls], an owned texture and an owned framebuffer are
    not alive on it afterwards, and the default framebuffer is bound on it if
    a framebuffer was owned, the binding left alone if not.  Every other
    context is left as it was: a resource the object owns that another
    context made is still alive there.  Afterwards the object is not valid
    and has no colour buffer. *)
Theorem destroy_releases_what_is_owned (this : TargetRef) (gl : GLRef)
  (W : World) :
  _gl (targets W this) = Some gl ->
  exists W',
    destroyRenderTarget this W = Returned tt W'
    /\ calls (contexts W' gl)
       = calls (contexts W gl) ++ destroy_calls (targets W this)
    /\ (forall tex, _colorBuffer (targets W this) = Some tex ->
          ~ In tex (liveTextures (contexts W' gl)))
    /\ (forall fbo, _renderTexture (targets W this) = Some fbo ->
          ~ In fbo (liveFramebuffers (contexts W' gl))
          /\ drawFramebuffer (contexts W' gl) = None)
    /\ (_renderTexture (targets W this) = None ->
          drawFramebuffer (contexts W' gl) = drawFramebuffer (contexts W gl))
    /\ isValid this W' = Returned false W'
    /\ getColorBuffer this W' = Returned None W'
    /\ (forall other, other <> gl -> contexts W' other = contexts W other)
    /\ (forall other tex, other <> gl ->
          In tex (liveTextures (contexts W other)) ->
          In tex (liveTextures (contexts W' other)))
    /\ (forall other fbo, other <> gl ->
          In fbo (liveFramebuffers (contexts W other)) ->
          In fbo (liveFramebuffers (contexts W' other))).
Proof.
  intros Egl.
  destruct (destroy_with_context this W Egl)
    as (W' & Hd & Et & Ec & _ & Hother & _).
  destruct (destroyed_context_frame (targets W this) (contexts W gl))
    as (Ftex & Ffb & _ & _ & Fdraw).
  exists W'. split; [exact Hd |].
  rewrite Ec, calls_destroyed_context, Ftex, Ffb, Fdraw.
  unfold isValid, getColorBuffer, read, bind, ret. rewrite Et.
  repeat split.
  - intros tex ->. apply not_in_filter_texture.
  - rewrite H. apply not_in_filter_framebuffer.
  - now rewrite H.
  - intros ->. reflexivity.
  - exact Hother.
  - intros other tex D Hin. now rewrite (Hother other D).
  - intros other fbo D Hin. now rewrite (Hother other D).
Qed.

(** The object was allocated on context 0, then allocated again on context 1,
    where [createFramebuffer] returned [null]: it holds context 0 and owns a
    texture of context 1.  [destroyRenderTarget] sends its calls to context
    0; the texture is still alive on context 1. *)
Lemma destroy_releases_what_is_owned_witness :
  let W := run [op_new; op_allocate 0 0 64%float 32%float None;
                op_allocate 0 1 64%float 32%float None] mixed_world in
  _gl (targets W 0) = Some 0
  /\ _colorBuffer (targets W 0) = Some (mkTexture 1 0)
  /\ exists W',
       destroyRenderTarget 0 W = Returned tt W'
       /\ ~ In (mkTexture 1 0) (liveTextures (contexts W' 0))
       /\ In (mkTexture 1 0) (liveTextures (contexts W' 1))
       /\ drawFramebuffer (contexts W' 0) = drawFramebuffer (contexts W 0).
Proof.
  intros W.
  assert (Egl : _gl (targets W 0) = Some 0) by (vm_compute; reflexivity).
  assert (Ecb : _colorBuffer (targets W 0) = Some (mkTexture 1 0))
    by (vm_compute; reflexivity).
  split; [exact Egl | split; [exact Ecb |]].
  destruct (destroy_releases_what_is_owned 0 W Egl)
    as (W' & Hd & _ & Htex & _ & Hnone & _ & _ & _ & Hlive & _).
  exists W'. split; [exact Hd | split; [| split]].
  - apply Htex. exact Ecb.
  - apply Hlive; [discriminate |]. vm_compute. left. reflexivity.
  - apply Hnone. vm_compute. reflexivity.
Defined.

(** X8. [destroyRenderTarget] resets nothing but the two resource fields:
    after it the size accessors still return the size of the last successful
    allocation, [getGL] the context, [getOldFBO] the saved binding, and the
    index and the links are untouched. *)
Theorem destroy_keeps_size_and_context (this : TargetRef) (gl : GLRef)
  (W : World) :
  _gl (targets W this) = Some gl ->
  exists W',
    destroyRenderTarget this W = Returned tt W'
    /\ getBufferWidth this W' = Returned (_bufferWidth (targets W this)) W'
    /\ getBufferHeight this W' = Returned (_bufferHeight (targets W this)) W'
    /\ getGL this W' = Returned (Some gl) W'
    /\ getOldFBO this W' = Returned (_oldFbo (targets W this)) W'
    /\ bookkeeping (targets W' this) = bookkeeping (targets W this).
Proof.
  intros Egl.
  destruct (destroy_with_context this W Egl) as (W' & Hd & Et & _).
  exists W'. split; [exact Hd |].
  unfold getBufferWidth, getBufferHeight, getGL, getOldFBO, read.
  rewrite Et. cbn. rewrite Egl. repeat split.
Qed.

Lemma destroy_keeps_size_and_context_witness :
  let W := run [op_new; op_allocate 0 0 64%float 32%float None]
             (empty_world true) in
  exists W',
    destroyRenderTarget 0 W = Returned tt W'
    /\ isValid 0 W' = Returned false W'
    /\ getBufferWidth 0 W' = Returned 64%float W'
    /\ getBufferHeight 0 W' = Returned 32%float W'.
Proof.
  intros W.
  destruct (destroy_keeps_size_and_context 0 W (gl := 0)
              ltac:(vm_compute; reflexivity))
    as (W' & Hd & Hw & Hh & _).
  exists W'. split; [exact Hd | split; [| split]].
  - destruct (destroy_with_context 0 W (gl := 0)
                ltac:(vm_compute; reflexivity)) as (W2 & Hd2 & Et & _).
    rewrite Hd in Hd2. apply returned_inj in Hd2. destruct Hd2 as [_ <-].
    unfold isValid, read, bind, ret. rewrite Et. reflexivity.
  - rewrite Hw. reflexivity.
  - rewrite Hh. reflexivity.
Defined.

(** X9. On an object that holds no context and owns a texture or a
    framebuffer, [destroyRenderTarget] throws a TypeError in the world it
    started from: nothing is released and the object still owns what it
    owned. *)
Theorem destroy_without_context_throws (this : TargetRef) (W : World) :
  _gl (targets W this) = None ->
  _colorBuffer (targets W this) <> None
  \/ _renderTexture (targets W this) <> None ->
  destroyRenderTarget this W
  = Thrown (TypeError "Cannot read properties of null") W.
Proof.
  intros Egl Howns. unfold destroyRenderTarget.
  destruct (_colorBuffer (targets W this)) as [tex |] eqn:Ecb.
  - js_facts Ecb Ecb Ecb. reflexivity.
  - destruct (_renderTexture (targets W this)) as [fbo |] eqn:Ert.
    + js_facts Ecb Ert Ert. reflexivity.
    + destruct Howns as [C | C]; now contradiction C.
Qed.

Lemma destroy_without_context_throws_witness :
  let W := run [op_new; op_allocate 0 0 64%float 32%float None]
             (scripted_world [] [false] []) in
  destroyRenderTarget 0 W
  = Thrown (TypeError "Cannot read properties of null") W.
Proof.
  intros W. apply destroy_without_context_throws.
  - vm_compute. reflexivity.
  - left. vm_compute. discriminate.
Defined.

(** ** copyBuffer, further *)

(** X10. [copyBuffer] restores the draw binding only.  Its last call binds
    [FRAMEBUFFER], which sets the read binding too: afterwards the read
    binding is the draw binding found at entry, whatever the read binding
    was.  No texture or framebuffer is created or deleted. *)
Theorem copyBuffer_read_binding (gl : GLRef) (src dst : TargetRef) (W : World) :
  isWebGL2 (contexts W gl) = true ->
  exists W',
    copyBuffer gl (Some src) (Some dst) W = Returned tt W'
    /\ readFramebuffer (contexts W' gl) = drawFramebuffer (contexts W gl)
    /\ liveTextures (contexts W' gl) = liveTextures (contexts W gl)
    /\ liveFramebuffers (contexts W' gl) = liveFramebuffers (contexts W gl).
Proof.
  intros E. eexists. split.
  - unfold copyBuffer. js_run. js_last. reflexivity.
  - js_simpl. repeat split.
Qed.

Lemma copyBuffer_read_binding_witness :
  let W := run [op_new; op_new;
                op_allocate 0 0 64%float 32%float None;
                op_allocate 1 0 16%float 8%float None] (empty_world true) in
  exists W',
    copyBuffer 0 (Some 0) (Some 1) W = Returned tt W'
    /\ readFramebuffer (contexts W' 0) = Some (mkFramebuffer 0 3).
Proof.
  intros W.
  destruct (copyBuffer_read_binding 0 0 1 W ltac:(vm_compute; reflexivity))
    as (W' & Hrun & Hread & _).
  exists W'. split; [exact Hrun |].
  rewrite Hread. vm_compute. reflexivity.
Defined.

(** ** What the operations leave alone *)

Lemma touches_only_refl (this : TargetRef) (W : World) : touches_only this W W.
Proof. intros other _. reflexivity. Qed.

Lemma touches_only_trans (this : TargetRef) (W1 W2 W3 : World) :
  touches_only this W1 W2 -> touches_only this W2 W3 -> touches_only this W1 W3.
Proof. intros H12 H23 other D. now rewrite H23, H12. Qed.

Lemma touches_only_same_targets (this : TargetRef) {A : Type} (m : M A) :
  (forall W, targets (final_world (m W)) = targets W) ->
  respects (touches_only this) m.
Proof. intros H W other _. now rewrite H. Qed.

Lemma touches_only_gl_do this gl op : respects (touches_only this) (gl_do gl op).
Proof. apply touches_only_same_targets. reflexivity. Qed.

Lemma touches_only_gl_call this {A : Type} gl (op : GLContext -> A * GLContext) :
  respects (touches_only this) (gl_call gl op).
Proof. apply touches_only_same_targets. reflexivity. Qed.

Lemma touches_only_console_error this message :
  respects (touches_only this) (console_error message).
Proof. apply touches_only_same_targets. reflexivity. Qed.

Lemma touches_only_assign this upd : respects (touches_only this) (assign upd this).
Proof. intros W other D. cbn. now rewrite update_neq by exact D. Qed.

Lemma touches_none_refl (W : World) : touches_none W W.
Proof. reflexivity. Qed.

Lemma touches_none_trans (W1 W2 W3 : World) :
  touches_none W1 W2 -> touches_none W2 W3 -> touches_none W1 W3.
Proof. unfold touches_none. congruence. Qed.

Lemma touches_none_gl_do gl op : respects touches_none (gl_do gl op).
Proof. intros W. reflexivity. Qed.

Lemma touches_none_gl_call {A : Type} gl (op : GLContext -> A * GLContext) :
  respects touches_none (gl_call gl op).
Proof. intros W. reflexivity. Qed.

Lemma keeps_bookkeeping_refl (W : World) : keeps_bookkeeping W W.
Proof. split; [apply Nat.le_refl | reflexivity]. Qed.

Lemma keeps_bookkeeping_trans (W1 W2 W3 : World) :
  keeps_bookkeeping W1 W2 -> keeps_bookkeeping W2 W3 ->
  keeps_bookkeeping W1 W3.
Proof.
  intros [L12 H12] [L23 H23]. split; [lia |].
  intros t Ht. rewrite H23 by lia. apply H12. exact Ht.
Qed.

Lemma keeps_bookkeeping_same_targets {A : Type} (m : M A) :
  (forall W, targets (final_world (m W)) = targets W
             /\ nextTarget (final_world (m W)) = nextTarget W) ->
  respects keeps_bookkeeping m.
Proof.
  intros H W. destruct (H W) as [Ht Hn]. split; [lia |].
  intros t _. now rewrite Ht.
Qed.

Lemma keeps_bookkeeping_gl_do gl op : respects keeps_bookkeeping (gl_do gl op).
Proof. apply keeps_bookkeeping_same_targets. split; reflexivity. Qed.

Lemma keeps_bookkeeping_gl_call {A : Type} gl (op : GLContext -> A * GLContext) :
  respects keeps_bookkeeping (gl_call gl op).
Proof. apply keeps_bookkeeping_same_targets. split; reflexivity. Qed.

Lemma keeps_bookkeeping_console_error message :
  respects keeps_bookkeeping (console_error message).
Proof. apply keeps_bookkeeping_same_targets. split; reflexivity. Qed.

Lemma keeps_bookkeeping_assign upd this :
  (forall t, bookkeeping (upd t) = bookkeeping t) ->
  respects keeps_bookkeeping (assign upd this).
Proof.
  intros H W. split; [apply Nat.le_refl |].
  intros t _. cbn.
  destruct (Nat.eq_dec t this) as [-> | D].
  - rewrite update_eq. apply H.
  - now rewrite update_neq by exact D.
Qed.

Lemma keeps_bookkeeping_new :
  respects keeps_bookkeeping new_CubismRenderTarget_WebGL.
Proof.
  intros W. split; [cbn; lia |].
  intros t Ht. cbn. rewrite update_neq by lia. reflexivity.
Qed.

Lemma bookkeeping_set_gl v t : bookkeeping (Field.set_gl v t) = bookkeeping t.
Proof. reflexivity. Qed.

Lemma bookkeeping_set_colorBuffer v t :
  bookkeeping (Field.set_colorBuffer v t) = bookkeeping t.
Proof. reflexivity. Qed.

Lemma bookkeeping_set_renderTexture v t :
  bookkeeping (Field.set_renderTexture v t) = bookkeeping t.
Proof. reflexivity. Qed.

Lemma bookkeeping_set_bufferWidth v t :
  bookkeeping (Field.set_bufferWidth v t) = bookkeeping t.
Proof. reflexivity. Qed.

Lemma bookkeeping_set_bufferHeight v t :
  bookkeeping (Field.set_bufferHeight v t) = bookkeeping t.
Proof. reflexivity. Qed.

Lemma bookkeeping_set_oldFbo v t :
  bookkeeping (Field.set_oldFbo v t) = bookkeeping t.
Proof. reflexivity. Qed.

#[local] Hint Resolve touches_only_refl touches_only_gl_do
  touches_only_gl_call touches_only_console_error touches_only_assign
  touches_none_refl touches_none_gl_do touches_none_gl_call
  keeps_bookkeeping_refl keeps_bookkeeping_gl_do keeps_bookkeeping_gl_call
  keeps_bookkeeping_console_error keeps_bookkeeping_assign
  keeps_bookkeeping_new
  bookkeeping_set_gl bookkeeping_set_colorBuffer bookkeeping_set_renderTexture
  bookkeeping_set_bufferWidth bookkeeping_set_bufferHeight
  bookkeeping_set_oldFbo : respects.

Lemma destroyRenderTarget_touches_only (this : TargetRef) :
  respects (touches_only this) (destroyRenderTarget this).
Proof.
  unfold destroyRenderTarget. respects_body (touches_only_trans (this := this)).
Qed.

Lemma destroyRenderTarget_keeps_bookkeeping (this : TargetRef) :
  respects keeps_bookkeeping (destroyRenderTarget this).
Proof. unfold destroyRenderTarget. respects_body keeps_bookkeeping_trans. Qed.

#[local] Hint Resolve destroyRenderTarget_touches_only
  destroyRenderTarget_keeps_bookkeeping : respects.

(** X11. An operation changes no object but the one it is called on: every
    other object is, field for field, what it was, whether the operation
    returns or throws.  The static [copyBuffer] changes no object at all,
    and a construction none of the objects that exist. *)
Theorem run_op_touches_only_receiver (o : Op) (other : TargetRef) (W : World) :
  op_receiver o W <> Some other ->
  targets (run_op o W) other = targets W other.
Proof.
  intros D.
  assert (Hcopy : forall gl src dst, respects touches_none (copyBuffer gl src dst)).
  { intros gl src dst.
    unfold copyBuffer, getRenderTexture, getBufferWidth, getBufferHeight.
    respects_body touches_none_trans. }
  destruct o; cbn [run_op op_receiver] in *.
  - cbn. apply update_neq. congruence.
  - assert (H : respects (touches_only this)
                  (createOffscreenRenderTarget this gl width height
                     previousFramebuffer)).
    { unfold createOffscreenRenderTarget.
      respects_body (touches_only_trans (this := this)). }
    apply H. congruence.
  - assert (H : respects (touches_only this) (beginDraw this restoreFbo)).
    { unfold beginDraw. respects_body (touches_only_trans (this := this)). }
    apply H. congruence.
  - assert (H : respects (touches_only this) (endDraw this)).
    { unfold endDraw. respects_body (touches_only_trans (this := this)). }
    apply H. congruence.
  - assert (H : respects (touches_only this) (clear this r g b a)).
    { unfold clear. respects_body (touches_only_trans (this := this)). }
    apply H. congruence.
  - apply destroyRenderTarget_touches_only. congruence.
  - now rewrite (Hcopy gl src dst W).
Qed.

Lemma run_op_touches_only_receiver_witness :
  let W := run [op_new; op_new;
                op_allocate 0 0 64%float 32%float None;
                op_allocate 1 0 16%float 8%float None] (empty_world true) in
  targets (run_op (op_destroy 0) W) 1 = targets W 1
  /\ targets (run_op (op_copyBuffer 0 (Some 0) (Some 1)) W) 1 = targets W 1.
Proof.
  intros W. split; apply run_op_touches_only_receiver; discriminate.
Defined.

Lemma run_op_keeps_bookkeeping (o : Op) (W : World) :
  keeps_bookkeeping W (run_op o W).
Proof.
  destruct o; cbn [run_op].
  - apply keeps_bookkeeping_new.
  - revert W.
    change (respects keeps_bookkeeping
              (createOffscreenRenderTarget this gl width height
                 previousFramebuffer)).
    unfold createOffscreenRenderTarget.
    respects_body keeps_bookkeeping_trans.
  - revert W. change (respects keeps_bookkeeping (beginDraw this restoreFbo)).
    unfold beginDraw. respects_body keeps_bookkeeping_trans.
  - revert W. change (respects keeps_bookkeeping (endDraw this)).
    unfold endDraw. respects_body keeps_bookkeeping_trans.
  - revert W. change (respects keeps_bookkeeping (clear this r g b a)).
    unfold clear. respects_body keeps_bookkeeping_trans.
  - apply destroyRenderTarget_keeps_bookkeeping.
  - revert W. change (respects keeps_bookkeeping (copyBuffer gl src dst)).
    unfold copyBuffer, getRenderTexture, getBufferWidth, getBufferHeight.
    respects_body keeps_bookkeeping_trans.
Qed.

(** X12. No sequence of constructions, allocations, drawing passes, clears,
    destructions and copies changes the index or a link of an object that
    exists: only the three setters write them. *)
Theorem run_keeps_bookkeeping (ops : list Op) (t : TargetRef) (W : World) :
  t < nextTarget W ->
  bookkeeping (targets (run ops W) t) = bookkeeping (targets W t).
Proof.
  assert (H : forall ops W, keeps_bookkeeping W (run ops W)).
  { clear. unfold run. intros ops0.
    induction ops0 as [| o ops0 IH]; intros W; cbn [fold_left].
    - apply keeps_bookkeeping_refl.
    - eapply keeps_bookkeeping_trans;
        [apply run_op_keeps_bookkeeping | apply IH]. }
  intros Ht. apply (H ops W). exact Ht.
Qed.

Lemma run_keeps_bookkeeping_witness :
  let W := final_world
             (setOffscreenIndex 0 7%float (run [op_new] (empty_world true))) in
  _offscreenIndex
    (targets
       (run [op_allocate 0 0 64%float 32%float None; op_beginDraw 0 None;
             op_endDraw 0; op_destroy 0; op_new] W) 0)
  = 7%float.
Proof.
  intros W.
  assert (H := @run_keeps_bookkeeping
                 [op_allocate 0 0 64%float 32%float None; op_beginDraw 0 None;
                  op_endDraw 0; op_destroy 0; op_new] 0 W
                 ltac:(vm_compute; lia)).
  apply (f_equal (fun b => fst (fst b))) in H. exact H.
Defined.

(** ** createOffscreenRenderTarget, further *)

(** The path of a call that returns [true], with the world left by the
    release of what the object owned. *)
Lemma allocate_success_world (this : TargetRef) (gl : GLRef) (w h : number)
  (prev : option WebGLFramebuffer) (W W1 : World) :
  createOffscreenRenderTarget this gl w h prev W = Returned true W1 ->
  exists W0 fbo,
    destroyRenderTarget this W = Returned tt W0
    /\ fst (Ctx.createFramebuffer gl (texture_made gl w h (contexts W0 gl)))
       = Some fbo
    /\ Ctx.scripted FRAMEBUFFER_COMPLETE
         (statusScript
            (snd (Ctx.createFramebuffer gl
                    (texture_made gl w h (contexts W0 gl)))))
       = FRAMEBUFFER_COMPLETE
    /\ _colorBuffer (targets W1 this)
       = fst (Ctx.createTexture gl (contexts W0 gl))
    /\ _renderTexture (targets W1 this) = Some fbo
    /\ contexts W1 gl
       = snd (Ctx.checkFramebufferStatus FRAMEBUFFER
                (Ctx.framebufferTexture2D FRAMEBUFFER COLOR_ATTACHMENT0
                   TEXTURE_2D (fst (Ctx.createTexture gl (contexts W0 gl))) 0
                   (Ctx.bindFramebuffer FRAMEBUFFER (Some fbo)
                      (snd (Ctx.createFramebuffer gl
                              (texture_made gl w h (contexts W0 gl)))))))
    /\ console W1 = console W0.
Proof.
  unfold createOffscreenRenderTarget.
  destruct (destroyRenderTarget this W) as [[] W0 | e W0] eqn:Hd.
  2:{ erewrite bind_thrown by exact Hd. discriminate. }
  erewrite bind_returned by exact Hd. js_run.
  fold (texture_made gl w h (contexts W0 gl)).
  destruct (fst (Ctx.createFramebuffer gl
                   (texture_made gl w h (contexts W0 gl))))
    as [fbo |] eqn:Efbo; [| js_run; js_last; discriminate].
  js_run. rewrite status_of_new_framebuffer.
  destruct (Z.eqb_spec
              (Ctx.scripted FRAMEBUFFER_COMPLETE
                 (statusScript
                    (snd (Ctx.createFramebuffer gl
                            (texture_made gl w h (contexts W0 gl))))))
              FRAMEBUFFER_COMPLETE) as [Est | _].
  - js_run. js_last. intros H. apply returned_inj in H.
    destruct H as [_ <-]. js_simpl.
    exists W0, fbo. repeat split; assumption.
  - js_run.
    match goal with
    | |- context [bind (destroyRenderTarget ?t) _ ?w] =>
        destruct (destroyRenderTarget t w) as [[] W2 | e W2] eqn:Hd2
    end.
    + erewrite bind_returned by exact Hd2. js_last. discriminate.
    + erewrite bind_thrown by exact Hd2. discriminate.
Qed.

Lemma texture_made_calls (gl : GLRef) (w h : number) (g : GLContext) :
  calls (texture_made gl w h g)
  = calls g
    ++ [ call_createTexture (fst (Ctx.createTexture gl g));
         call_bindTexture TEXTURE_2D (fst (Ctx.createTexture gl g));
         call_texImage2D TEXTURE_2D 0 RGBA w h 0 RGBA UNSIGNED_BYTE;
         call_texParameteri TEXTURE_2D TEXTURE_WRAP_S CLAMP_TO_EDGE;
         call_texParameteri TEXTURE_2D TEXTURE_WRAP_T CLAMP_TO_EDGE;
         call_texParameteri TEXTURE_2D TEXTURE_MIN_FILTER LINEAR;
         call_texParameteri TEXTURE_2D TEXTURE_MAG_FILTER LINEAR;
         call_bindTexture TEXTURE_2D None ]
  /\ boundTexture (texture_made gl w h g) = None.
Proof.
  unfold texture_made, Ctx.createTexture.
  destruct (Ctx.scripted true (textureScript g)); cbn;
    rewrite <- !app_assoc; split; reflexivity.
Qed.

Lemma createFramebuffer_calls (gl : GLRef) (g : GLContext) :
  calls (snd (Ctx.createFramebuffer gl g))
  = calls g ++ [call_createFramebuffer (fst (Ctx.createFramebuffer gl g))]
  /\ boundTexture (snd (Ctx.createFramebuffer gl g)) = boundTexture g.
Proof.
  unfold Ctx.createFramebuffer.
  destruct (Ctx.scripted true (framebufferScript g)); split; reflexivity.
Qed.

Lemma checked_context (cb : option WebGLTexture) (fbo : WebGLFramebuffer)
  (g : GLContext) :
  let g' :=
    snd (Ctx.checkFramebufferStatus FRAMEBUFFER
           (Ctx.framebufferTexture2D FRAMEBUFFER COLOR_ATTACHMENT0
              TEXTURE_2D cb 0
              (Ctx.bindFramebuffer FRAMEBUFFER (Some fbo) g))) in
  calls g'
  = calls g
    ++ [ call_bindFramebuffer FRAMEBUFFER (Some fbo);
         call_framebufferTexture2D FRAMEBUFFER COLOR_ATTACHMENT0 TEXTURE_2D
           cb 0;
         call_checkFramebufferStatus FRAMEBUFFER
           (Ctx.scripted FRAMEBUFFER_COMPLETE (statusScript g)) ]
  /\ drawFramebuffer g' = Some fbo
  /\ readFramebuffer g' = Some fbo
  /\ boundTexture g' = boundTexture g
  /\ liveFramebuffers g' = liveFramebuffers g.
Proof. cbn. rewrite <- !app_assoc. repeat split. Qed.

(** X13. An allocation that returns [true] leaves the new framebuffer bound,
    as draw and as read framebuffer: [previousFramebuffer] is not rebound on
    success.  The framebuffer is alive, and no texture is bound. *)
Theorem allocate_success_leaves_framebuffer_bound (this : TargetRef)
  (gl : GLRef) (w h : number) (prev : option WebGLFramebuffer) (W W1 : World) :
  createOffscreenRenderTarget this gl w h prev W = Returned true W1 ->
  exists fbo,
    getRenderTexture this W1 = Returned (Some fbo) W1
    /\ drawFramebuffer (contexts W1 gl) = Some fbo
    /\ readFramebuffer (contexts W1 gl) = Some fbo
    /\ In fbo (liveFramebuffers (contexts W1 gl))
    /\ boundTexture (contexts W1 gl) = None.
Proof.
  intros H.
  destruct (allocate_success_world _ _ _ _ _ _ H)
    as (W0 & fbo & _ & Efbo & _ & _ & Ert & Ec & _).
  exists fbo. unfold getRenderTexture, read. rewrite Ert, Ec.
  destruct (checked_context (fst (Ctx.createTexture gl (contexts W0 gl))) fbo
              (snd (Ctx.createFramebuffer gl
                      (texture_made gl w h (contexts W0 gl)))))
    as (_ & -> & -> & -> & ->).
  destruct (createFramebuffer_frame gl (texture_made gl w h (contexts W0 gl)))
    as (_ & -> & _).
  destruct (createFramebuffer_calls gl (texture_made gl w h (contexts W0 gl)))
    as (_ & ->).
  destruct (texture_made_calls gl w h (contexts W0 gl)) as (_ & ->).
  rewrite Efbo. repeat split. left. reflexivity.
Qed.

Lemma allocate_success_leaves_framebuffer_bound_witness :
  let W := run [op_new; op_new; op_allocate 1 0 16%float 8%float None]
             (empty_world true) in
  exists W1,
    createOffscreenRenderTarget 0 0 64%float 32%float
      (Some (mkFramebuffer 0 1)) W = Returned true W1
    /\ drawFramebuffer (contexts W 0) = Some (mkFramebuffer 0 1)
    /\ drawFramebuffer (contexts W1 0) = Some (mkFramebuffer 0 3).
Proof.
  intros W.
  assert (H : createOffscreenRenderTarget 0 0 64%float 32%float
                (Some (mkFramebuffer 0 1)) W
              = Returned true
                  (run [op_allocate 0 0 64%float 32%float
                          (Some (mkFramebuffer 0 1))] W))
    by (vm_compute; reflexivity).
  eexists. split; [exact H | split; [vm_compute; reflexivity |]].
  destruct (allocate_success_leaves_framebuffer_bound _ _ _ _ _ _ H)
    as (fbo & Hrt & Hdraw & _).
  rewrite Hdraw.
  assert (E : getRenderTexture 0
                (run [op_allocate 0 0 64%float 32%float
                        (Some (mkFramebuffer 0 1))] W)
              = Returned (Some (mkFramebuffer 0 3))
                  (run [op_allocate 0 0 64%float 32%float
                          (Some (mkFramebuffer 0 1))] W))
    by (vm_compute; reflexivity).
  rewrite E in Hrt. apply returned_inj in Hrt. destruct Hrt as [Hrt _].
  symmetry. exact Hrt.
Defined.

(** X14. What an allocation that returns [true] sends to its context, once
    [destroyRenderTarget] has released what the object owned, is exactly
    [allocate_calls]: a texture is created, bound, given an RGBA
    unsigned-byte image of the size asked, clamped to the edge in both
    directions and filtered linearly, and unbound; a framebuffer is created,
    bound, given the texture as colour attachment 0 and found complete.
    Nothing is written on the console. *)
Theorem allocate_success_calls (this : TargetRef) (gl : GLRef) (w h : number)
  (prev : option WebGLFramebuffer) (W W1 : World) :
  createOffscreenRenderTarget this gl w h prev W = Returned true W1 ->
  exists W0 fbo,
    destroyRenderTarget this W = Returned tt W0
    /\ _renderTexture (targets W1 this) = Some fbo
    /\ calls (contexts W1 gl)
       = calls (contexts W0 gl)
         ++ allocate_calls (_colorBuffer (targets W1 this)) fbo w h
    /\ console W1 = console W0.
Proof.
  intros H.
  destruct (allocate_success_world _ _ _ _ _ _ H)
    as (W0 & fbo & Hd & Efbo & Est & Ecb & Ert & Ec & Econsole).
  exists W0, fbo. split; [exact Hd | split; [exact Ert | split]];
    [| exact Econsole].
  rewrite Ec, Ecb.
  destruct (checked_context (fst (Ctx.createTexture gl (contexts W0 gl))) fbo
              (snd (Ctx.createFramebuffer gl
                      (texture_made gl w h (contexts W0 gl)))))
    as (-> & _).
  destruct (createFramebuffer_calls gl (texture_made gl w h (contexts W0 gl)))
    as (-> & _).
  destruct (texture_made_calls gl w h (contexts W0 gl)) as (-> & _).
  rewrite Efbo, Est. unfold allocate_calls.
  rewrite <- !app_assoc. reflexivity.
Qed.

Lemma allocate_success_calls_witness :
  exists W1,
    createOffscreenRenderTarget 0 0 64%float 32%float None
      (run [op_new] (empty_world true)) = Returned true W1
    /\ calls (contexts W1 0)
       = allocate_calls (Some (mkTexture 0 0)) (mkFramebuffer 0 1)
           64%float 32%float.
Proof.
  assert (H : createOffscreenRenderTarget 0 0 64%float 32%float None
                (run [op_new] (empty_world true))
              = Returned true
                  (run [op_new; op_allocate 0 0 64%float 32%float None]
                     (empty_world true)))
    by (vm_compute; reflexivity).
  eexists. split; [exact H |].
  destruct (allocate_success_calls _ _ _ _ _ _ H)
    as (W0 & fbo & Hd & Ert & Hcalls & _).
  rewrite Hcalls.
  assert (E0 : destroyRenderTarget 0 (run [op_new] (empty_world true))
               = Returned tt (run [op_new] (empty_world true)))
    by (vm_compute; reflexivity).
  rewrite E0 in Hd. apply returned_inj in Hd. destruct Hd as [_ <-].
  assert (E1 : _renderTexture
                 (targets
                    (run [op_new; op_allocate 0 0 64%float 32%float None]
                       (empty_world true)) 0)
               = Some (mkFramebuffer 0 1))
    by (vm_compute; reflexivity).
  rewrite E1 in Ert. injection Ert as <-.
  vm_compute. reflexivity.
Defined.

Lemma createFramebuffer_fails (gl : GLRef) (g : GLContext) :
  Ctx.scripted true (framebufferScript g) = false ->
  fst (Ctx.createFramebuffer gl g) = None
  /\ liveTextures (snd (Ctx.createFramebuffer gl g)) = liveTextures g
  /\ liveFramebuffers (snd (Ctx.createFramebuffer gl g)) = liveFramebuffers g
  /\ drawFramebuffer (snd (Ctx.createFramebuffer gl g)) = drawFramebuffer g.
Proof.
  intros E. unfold Ctx.createFramebuffer. rewrite E. repeat split.
Qed.

Lemma createTexture_succeeds (gl : GLRef) (g : GLContext) :
  Ctx.scripted true (textureScript g) = true ->
  fst (Ctx.createTexture gl g) = Some (mkTexture gl (nextName g)).
Proof. intros E. unfold Ctx.createTexture. rewrite E. reflexivity. Qed.

(** X15. On an object that owns nothing, an allocation for which
    [createFramebuffer] returns [null] returns [false] after writing
    "Failed to create framebuffer" on the console, and undoes nothing: the
    texture it created is alive and held by the object, where
    [getColorBuffer] returns it, while the object is not valid; the
    framebuffer binding is the one found, [previousFramebuffer] is not
    bound, and the object's context is not recorded. *)
Theorem allocate_without_framebuffer (this : TargetRef) (gl : GLRef)
  (w h : number) (prev : option WebGLFramebuffer) (W : World) :
  _colorBuffer (targets W this) = None ->
  _renderTexture (targets W this) = None ->
  Ctx.scripted true (framebufferScript (contexts W gl)) = false ->
  exists W',
    createOffscreenRenderTarget this gl w h prev W = Returned false W'
    /\ getColorBuffer this W'
       = Returned (fst (Ctx.createTexture gl (contexts W gl))) W'
    /\ (forall tex, fst (Ctx.createTexture gl (contexts W gl)) = Some tex ->
          In tex (liveTextures (contexts W' gl)))
    /\ isValid this W' = Returned false W'
    /\ getGL this W' = Returned (_gl (targets W this)) W'
    /\ drawFramebuffer (contexts W' gl) = drawFramebuffer (contexts W gl)
    /\ console W' = console W ++ ["Failed to create framebuffer"%string].
Proof.
  intros Ecb Ert Hfb.
  destruct (texture_made_frame gl w h (contexts W gl))
    as (Mtex & _ & Msfb & _ & Mdraw).
  rewrite <- Msfb in Hfb.
  destruct (createFramebuffer_fails gl _ Hfb) as (Enone & Ctex & _ & Cdraw).
  unfold createOffscreenRenderTarget.
  erewrite bind_returned by (apply destroy_nothing; assumption).
  js_run. fold (texture_made gl w h (contexts W gl)). rewrite Enone.
  js_run. js_last.
  eexists. split; [reflexivity |].
  unfold getColorBuffer, getGL, isValid, read, bind, ret. js_simpl.
  rewrite Ctex, Mtex, Cdraw, Mdraw, Ert.
  repeat split.
  intros tex ->. left. reflexivity.
Qed.

Lemma allocate_without_framebuffer_witness :
  let W := run [op_new] (scripted_world [] [false] []) in
  exists W',
    createOffscreenRenderTarget 0 0 64%float 32%float None W
    = Returned false W'
    /\ getColorBuffer 0 W' = Returned (Some (mkTexture 0 0)) W'
    /\ isValid 0 W' = Returned false W'.
Proof.
  intros W.
  destruct (allocate_without_framebuffer 0 0 64%float 32%float None W
              ltac:(vm_compute; reflexivity) ltac:(vm_compute; reflexivity)
              ltac:(vm_compute; reflexivity))
    as (W' & Hrun & Hcb & _ & Hvalid & _).
  exists W'. split; [exact Hrun | split; [| exact Hvalid]].
  rewrite Hcb. reflexivity.
Defined.

(** X16. On an object that holds no context and owns nothing, an allocation
    whose texture and framebuffer are created and whose framebuffer is found
    incomplete does not return: after "Framebuffer is not complete" is
    written, [previousFramebuffer] bound and the framebuffer deleted, the
    [destroyRenderTarget] of the rollback throws a TypeError, because the
    context is recorded in the object on success only.  The texture is alive
    and held by the object. *)
Theorem allocate_incomplete_without_context_throws (this : TargetRef)
  (gl : GLRef) (w h : number) (prev : option WebGLFramebuffer) (W : World) :
  _gl (targets W this) = None ->
  _colorBuffer (targets W this) = None ->
  _renderTexture (targets W this) = None ->
  Ctx.scripted true (textureScript (contexts W gl)) = true ->
  Ctx.scripted true (framebufferScript (contexts W gl)) = true ->
  Ctx.scripted FRAMEBUFFER_COMPLETE (statusScript (contexts W gl))
  <> FRAMEBUFFER_COMPLETE ->
  let tex := mkTexture gl (nextName (contexts W gl)) in
  exists W',
    createOffscreenRenderTarget this gl w h prev W
    = Thrown (TypeError "Cannot read properties of null") W'
    /\ drawFramebuffer (contexts W' gl) = prev
    /\ getColorBuffer this W' = Returned (Some tex) W'
    /\ In tex (liveTextures (contexts W' gl))
    /\ incl (liveFramebuffers (contexts W' gl))
         (liveFramebuffers (contexts W gl))
    /\ isValid this W' = Returned false W'
    /\ console W' = console W ++ ["Framebuffer is not complete"%string].
Proof.
  intros Egl Ecb Ert Htex Hfb Hst tex. subst tex.
  pose proof (createTexture_succeeds gl (contexts W gl) Htex) as Etex.
  destruct (texture_made_frame gl w h (contexts W gl))
    as (Mtex & Mfb & Msfb & Msst & _).
  destruct (createFramebuffer_frame gl (texture_made gl w h (contexts W gl)))
    as (Ctex & Cfb & Csst & Cnone).
  unfold createOffscreenRenderTarget.
  erewrite bind_returned by (apply destroy_nothing; assumption).
  js_run. fold (texture_made gl w h (contexts W gl)).
  destruct (fst (Ctx.createFramebuffer gl (texture_made gl w h (contexts W gl))))
    as [fbo |] eqn:Efbo.
  2:{ specialize (Cnone eq_refl). congruence. }
  js_run. rewrite status_of_new_framebuffer, Csst, Msst.
  destruct (Z.eqb_spec
              (Ctx.scripted FRAMEBUFFER_COMPLETE (statusScript (contexts W gl)))
              FRAMEBUFFER_COMPLETE) as [E | _]; [contradiction |].
  js_run.
  erewrite bind_thrown.
  2:{ apply destroy_without_context with
        (tex := mkTexture gl (nextName (contexts W gl)));
        js_simpl; [exact Egl | exact Etex]. }
  eexists. split; [reflexivity |].
  unfold getColorBuffer, isValid, read, bind, ret. js_simpl.
  match goal with
  | |- context [Ctx.deleteFramebuffer fbo
                  (Ctx.bindFramebuffer FRAMEBUFFER prev
                     (snd (Ctx.checkFramebufferStatus FRAMEBUFFER
                             (Ctx.framebufferTexture2D _ _ _ ?cb _
                                (Ctx.bindFramebuffer _ _ ?g)))))] =>
      destruct (rolled_back_context prev cb fbo g) as (Rtex & Rfb & Rdraw)
  end.
  rewrite Rtex, Rfb, Rdraw, Ctex, Mtex, Cfb, filter_out_head_framebuffer,
    Mfb, Etex, Ert.
  repeat split.
  - left. reflexivity.
  - apply incl_filter.
Qed.

Lemma allocate_incomplete_without_context_throws_witness :
  let W := run [op_new] (scripted_world [] [] [FRAMEBUFFER_UNSUPPORTED]) in
  exists W',
    createOffscreenRenderTarget 0 0 64%float 32%float None W
    = Thrown (TypeError "Cannot read properties of null") W'
    /\ getColorBuffer 0 W' = Returned (Some (mkTexture 0 0)) W'.
Proof.
  intros W.
  destruct (allocate_incomplete_without_context_throws 0 0
              64%float 32%float None W
              ltac:(vm_compute; reflexivity) ltac:(vm_compute; reflexivity)
              ltac:(vm_compute; reflexivity) ltac:(vm_compute; reflexivity)
              ltac:(vm_compute; reflexivity) ltac:(vm_compute; discriminate))
    as (W' & Hrun & _ & Hcb & _).
  exists W'. split; [exact Hrun |].
  rewrite Hcb. reflexivity.
Defined.
